(** * Commit-message generator: diff analysis and commit-type inference

    A shallow embedding of [docs/skills/git-commit-messages/commit-generator.py]
    (functions [analyze_changes], [determine_commit_type], [determine_scope]
    and [generate_subject]) together with the properties the specification
    states about them. The git wrapper and the callers
    ([run_git_command], [generate_commit_message], [main]) and the name
    pattern of [docs/skills/skill-creator/validate-skill.py] follow, with
    further properties read off the code.

    Modelling conventions.
    - A Python [str] is a [string]; characters are the 8-bit [ascii] of the
      standard library and [str.lower] acts on the letters [A]-[Z] only.
    - Python's unbounded non-negative counters are [nat].
    - The [analysis] dictionary has a fixed set of keys: it is the record
      [Analysis]. Its two [set()] values are [gset string].
    - Iterating a Python [set] visits its elements in an order the language
      leaves open; every such iteration takes the order as a [SetIter]. *)

From Stdlib Require Import Ascii String NArith DecimalString.
From stdpp Require Import gmap strings list sets.

Local Open Scope string_scope.
Local Open Scope nat_scope.

(** ** Python string primitives *)

Module PyStr.

(** [s.startswith(p)] *)
Definition startswith (s p : string) : bool := String.prefix p s.

(** [sub in s] *)
Fixpoint contains (sub s : string) : bool :=
  String.prefix sub s ||
  match s with
  | "" => false
  | String _ s' => contains sub s'
  end.

Definition lower_char (c : ascii) : ascii :=
  let n := N_of_ascii c in
  if (65 <=? n)%N && (n <=? 90)%N then ascii_of_N (n + 32) else c.

(** [s.lower()] *)
Fixpoint lower (s : string) : string :=
  match s with
  | "" => ""
  | String c s' => String (lower_char c) (lower s')
  end.

(** [s[:n]] *)
Fixpoint take (n : nat) (s : string) : string :=
  match n, s with
  | O, _ => ""
  | S _, "" => ""
  | S n', String c s' => String c (take n' s')
  end.

(** [s[n:]] *)
Fixpoint drop (n : nat) (s : string) : string :=
  match n, s with
  | O, _ => s
  | S _, "" => ""
  | S n', String _ s' => drop n' s'
  end.

(** [s.split(sep)] for a one-character separator: the piece that starts
    at the head of [s], and the pieces after it. *)
Fixpoint split_pieces (sep : ascii) (s : string) : string * list string :=
  match s with
  | "" => ("", [])
  | String c s' =>
      let (piece, pieces) := split_pieces sep s' in
      if Ascii.eqb c sep then ("", piece :: pieces) else (String c piece, pieces)
  end.

Definition split (sep : ascii) (s : string) : list string :=
  let (piece, pieces) := split_pieces sep s in piece :: pieces.

(** [s.rfind(c)], with Python's [-1] for "not found". *)
Fixpoint rfind (c : ascii) (s : string) : Z :=
  match s with
  | "" => (-1)%Z
  | String a s' =>
      let r := rfind c s' in
      if (0 <=? r)%Z then (r + 1)%Z
      else if Ascii.eqb a c then 0%Z else (-1)%Z
  end.

End PyStr.

(** ** The header pattern [re.search(r'diff --git a/(.+) b/(.+)', line)] *)

Module HeaderRe.

Definition newline : ascii := "010"%char.

(** The final [(.+)]: greedy, so it takes every character up to the next
    newline; it needs one character at least. *)
Fixpoint dot_star (s : string) : string :=
  match s with
  | "" => ""
  | String c s' => if Ascii.eqb c newline then "" else String c (dot_star s')
  end.

Definition dot_plus (s : string) : option string :=
  match dot_star s with
  | "" => None
  | g => Some g
  end.

(** [(.+) b/(.+)] matched at the head of [s]. The first group is greedy:
    extending it by one more character is tried before closing it, which
    is the order in which a backtracking matcher explores. *)
Fixpoint groups (s : string) : option (string * string) :=
  match s with
  | "" => None
  | String c s' =>
      if Ascii.eqb c newline then None
      else
        match groups s' with
        | Some (g1, g2) => Some (String c g1, g2)
        | None =>
            if PyStr.startswith s' " b/" then
              match dot_plus (PyStr.drop 3 s') with
              | Some g2 => Some (String c "", g2)
              | None => None
              end
            else None
        end
  end.

(** The whole pattern anchored at the head of [s]. *)
Definition match_here (s : string) : option (string * string) :=
  if PyStr.startswith s "diff --git a/" then groups (PyStr.drop 13 s) else None.

(** [re.search]: the leftmost position at which the pattern matches. *)
Fixpoint search (s : string) : option (string * string) :=
  match match_here s with
  | Some m => Some m
  | None =>
      match s with
      | "" => None
      | String _ s' => search s'
      end
  end.

End HeaderRe.

(** ** [pathlib.Path] (POSIX flavour): [parts], [name], [suffix] *)

Module PurePath.

(** [posixpath.splitroot], as (root, rest): no root when [p] does not start
    with a slash; root ["/"] when the second character is no slash or the
    third is one; otherwise [p[:2]], the root of exactly two slashes. *)
Definition splitroot (p : string) : string * string :=
  if negb (PyStr.startswith p "/") then ("", p)
  else if negb (PyStr.startswith (PyStr.drop 1 p) "/")
          || PyStr.startswith (PyStr.drop 2 p) "/"
  then ("/", PyStr.drop 1 p)
  else (PyStr.take 2 p, PyStr.drop 2 p).

Definition keep_segment (x : string) : bool :=
  negb (String.eqb x "") && negb (String.eqb x ".").

(** The components after the root: empty ones and ["."] are dropped. *)
Definition tail (p : string) : list string :=
  filter (λ x, keep_segment x = true) (PyStr.split "/" (splitroot p).2).

(** [Path(p).parts] *)
Definition parts (p : string) : list string :=
  let root := (splitroot p).1 in
  if String.eqb root "" then tail p else root :: tail p.

(** [Path(p).name] *)
Definition name (p : string) : string := List.last (tail p) "".

(** [Path(p).suffix]: from the last dot of the name on, when that dot is
    neither the first nor the last character of the name
    ([i = name.rfind('.')], [0 < i < len(name) - 1], as in CPython's pathlib
    up to version 3.13). *)
Definition suffix (p : string) : string :=
  let nm := name p in
  let i := PyStr.rfind "." nm in
  if (0 <? i)%Z && (i <? Z.of_nat (String.length nm) - 1)%Z
  then PyStr.drop (Z.to_nat i) nm
  else "".

End PurePath.

(** ** The analysis record *)

Record Analysis := mkAnalysis {
  has_new_files : bool;
  has_deleted_files : bool;
  has_modified_files : bool;
  has_renamed_files : bool;
  modified_extensions : gset string;
  affected_paths : gset string;
  lines_added : nat;
  lines_deleted : nat;
  test_files : nat;
  config_files : nat;
  doc_files : nat
}.

(** The dictionary [analyze_changes] starts from. *)
Definition initial : Analysis :=
  {| has_new_files := false; has_deleted_files := false;
     has_modified_files := false; has_renamed_files := false;
     modified_extensions := ∅; affected_paths := ∅;
     lines_added := 0; lines_deleted := 0;
     test_files := 0; config_files := 0; doc_files := 0 |}.

(** [any(k in s for k in keys)] *)
Definition any_in (keys : list string) (s : string) : bool :=
  existsb (λ k, PyStr.contains k s) keys.

Definition test_markers : list string := ["test"; "spec"; "__tests__"].
Definition config_markers : list string :=
  ["config"; "package.json"; "requirements.txt"; ".env"].
Definition doc_markers : list string := ["readme"; "docs"; ".md"; ".txt"].

(** The three buckets of a header's path, first match wins. *)
Inductive Bucket := TestFile | ConfigFile | DocFile | Unclassified.

Definition bucket (new_path : string) : Bucket :=
  if any_in test_markers (PyStr.lower new_path) then TestFile
  else if any_in config_markers (PyStr.lower new_path) then ConfigFile
  else if any_in doc_markers (PyStr.lower new_path) then DocFile
  else Unclassified.

(** The body of [if match:] (source lines 60-75). *)
Definition record_file (new_path : string) (a : Analysis) : Analysis :=
  let ext := PyStr.lower (PurePath.suffix new_path) in
  {| has_new_files := has_new_files a;
     has_deleted_files := has_deleted_files a;
     has_modified_files := has_modified_files a;
     has_renamed_files := has_renamed_files a;
     modified_extensions :=
       if String.eqb ext "" then modified_extensions a
       else {[ ext ]} ∪ modified_extensions a;
     affected_paths := {[ new_path ]} ∪ affected_paths a;
     lines_added := lines_added a;
     lines_deleted := lines_deleted a;
     test_files :=
       match bucket new_path with TestFile => S (test_files a) | _ => test_files a end;
     config_files :=
       match bucket new_path with ConfigFile => S (config_files a) | _ => config_files a end;
     doc_files :=
       match bucket new_path with DocFile => S (doc_files a) | _ => doc_files a end |}.

Definition set_has_new_files (a : Analysis) : Analysis :=
  mkAnalysis true (has_deleted_files a) (has_modified_files a) (has_renamed_files a)
    (modified_extensions a) (affected_paths a) (lines_added a) (lines_deleted a)
    (test_files a) (config_files a) (doc_files a).

Definition set_has_deleted_files (a : Analysis) : Analysis :=
  mkAnalysis (has_new_files a) true (has_modified_files a) (has_renamed_files a)
    (modified_extensions a) (affected_paths a) (lines_added a) (lines_deleted a)
    (test_files a) (config_files a) (doc_files a).

Definition set_has_renamed_files (a : Analysis) : Analysis :=
  mkAnalysis (has_new_files a) (has_deleted_files a) (has_modified_files a) true
    (modified_extensions a) (affected_paths a) (lines_added a) (lines_deleted a)
    (test_files a) (config_files a) (doc_files a).

Definition incr_lines_added (a : Analysis) : Analysis :=
  mkAnalysis (has_new_files a) (has_deleted_files a) (has_modified_files a)
    (has_renamed_files a) (modified_extensions a) (affected_paths a)
    (S (lines_added a)) (lines_deleted a)
    (test_files a) (config_files a) (doc_files a).

Definition incr_lines_deleted (a : Analysis) : Analysis :=
  mkAnalysis (has_new_files a) (has_deleted_files a) (has_modified_files a)
    (has_renamed_files a) (modified_extensions a) (affected_paths a)
    (lines_added a) (S (lines_deleted a))
    (test_files a) (config_files a) (doc_files a).

(** ** [analyze_changes] *)

(** The new path of a file header: the line starts with [diff --git] and
    the pattern is found in it; [None] for every other line. *)
Definition header_path (line : string) : option string :=
  if PyStr.startswith line "diff --git" then
    match HeaderRe.search line with
    | Some (_, new_path) => Some new_path
    | None => None
    end
  else None.

(** One turn of the [while] loop: the [if]/[elif] chain on [line]. *)
Definition analyze_line (a : Analysis) (line : string) : Analysis :=
  if PyStr.startswith line "diff --git" then
    match HeaderRe.search line with
    | Some (_, new_path) => record_file new_path a
    | None => a
    end
  else if PyStr.startswith line "new file mode" then set_has_new_files a
  else if PyStr.startswith line "deleted file mode" then set_has_deleted_files a
  else if PyStr.startswith line "rename" then set_has_renamed_files a
  else if PyStr.startswith line "+" && negb (PyStr.startswith line "+++") then
    incr_lines_added a
  else if PyStr.startswith line "-" && negb (PyStr.startswith line "---") then
    incr_lines_deleted a
  else a.

Definition diff_lines (diff : string) : list string :=
  PyStr.split HeaderRe.newline diff.

Definition analyze_changes (diff : string) : Analysis :=
  fold_left analyze_line (diff_lines diff) initial.

(** ** [determine_commit_type] *)

Definition chore_extensions : list string :=
  [".json"; ".yml"; ".yaml"; ".toml"; ".ini"].

Definition determine_commit_type (a : Analysis) : string :=
  if (0 <? test_files a)%nat && (test_files a =? size (affected_paths a))%nat then "test"
  else if (0 <? doc_files a)%nat && (doc_files a =? size (affected_paths a))%nat then "docs"
  else if (0 <? config_files a)%nat
          && bool_decide (set_Exists (λ ext, ext ∈ chore_extensions) (modified_extensions a))
  then "chore"
  else if has_new_files a && negb (has_modified_files a) && negb (has_deleted_files a)
  then "feat"
  else if has_deleted_files a && negb (has_new_files a) && negb (has_modified_files a)
  then "chore"
  else if (lines_deleted a * 2 <? lines_added a)%nat then "feat"
  else if (lines_added a * 2 <? lines_deleted a)%nat then "refactor"
  else "fix".

(** ** [determine_scope] *)

(** An order in which a Python [set] of strings may be iterated: some
    enumeration of its elements, each once. *)
Record SetIter := mkSetIter {
  iter : gset string → list string;
  iter_perm : ∀ X, iter X ≡ₚ elements X
}.

(** One enumeration, to show the record is inhabited. *)
Definition sorted_iter : SetIter :=
  {| iter := elements; iter_perm := λ X, reflexivity (elements X) |}.

Definition reserved_scopes : list string :=
  ["src"; "lib"; "app"; "test"; "tests"; "docs"].

(** What one path appends to [scopes]: its first part, lowercased, when the
    path has more than one part and that part is not a reserved name. *)
Definition scope_of_path (path : string) : list string :=
  match PurePath.parts path with
  | first :: _ :: _ =>
      let scope := PyStr.lower first in
      if bool_decide (scope ∈ reserved_scopes) then [] else [scope]
  | _ => []
  end.

(** The list [scopes] after the [for] loop over the given paths. *)
Definition collect_scopes (paths : list string) : list string :=
  flat_map scope_of_path paths.

(** [l.count(x)] *)
Definition count (l : list string) (x : string) : nat := count_occ string_dec l x.

(** [max(xs, key=key)]: the first element whose key no later element
    exceeds; [None] stands for the [ValueError] on an empty argument. *)
Definition py_max (key : string → nat) (xs : list string) : option string :=
  match xs with
  | [] => None
  | x :: rest =>
      Some (fold_left (λ best y, if (key best <? key y)%nat then y else best) rest x)
  end.

(** [None] stands for an exception escaping the function. *)
Definition determine_scope (it_paths it_scopes : SetIter) (a : Analysis)
  : option string :=
  if bool_decide (affected_paths a = ∅) then Some ""
  else
    let scopes := collect_scopes (iter it_paths (affected_paths a)) in
    match scopes with
    | [] => Some ""
    | [only] => Some only
    | _ => py_max (count scopes) (iter it_scopes (list_to_set scopes))
    end.

(** ** [generate_subject] *)

Definition description (type_hint : string) (a : Analysis) : string :=
  if String.eqb type_hint "feat" then
    if has_new_files a then "add new functionality" else "implement new feature"
  else if String.eqb type_hint "fix" then "fix issue"
  else if String.eqb type_hint "docs" then "update documentation"
  else if String.eqb type_hint "test" then "add tests"
  else if String.eqb type_hint "refactor" then "refactor code"
  else if String.eqb type_hint "style" then "update code style"
  else if String.eqb type_hint "chore" then "update configuration"
  else "update code".

Definition generate_subject (type_hint scope : string) (a : Analysis) : string :=
  let type_str :=
    if String.eqb scope "" then type_hint else type_hint +:+ "(" +:+ scope +:+ ")" in
  type_str +:+ ": " +:+ description type_hint a.

(** ** The pipeline of [generate_commit_message] (source lines 177-181) *)

Record Classification := mkClassification {
  commit_type : string;
  scope : string;
  subject : string
}.

Definition classify (it_paths it_scopes : SetIter) (a : Analysis)
  : option Classification :=
  let ty := determine_commit_type a in
  match determine_scope it_paths it_scopes a with
  | Some sc => Some (mkClassification ty sc (generate_subject ty sc a))
  | None => None
  end.

(** ** [str.strip] and the formatting of f-strings *)

Module PyText.

(** [c.isspace()] for the character with code point [c]: tab to carriage
    return, the four separators 28-31, the space, the next-line character
    (133) and the no-break space (160). *)
Definition is_space (c : ascii) : bool :=
  let n := N_of_ascii c in
  ((9 <=? n)%N && (n <=? 13)%N) || ((28 <=? n)%N && (n <=? 32)%N)
  || (n =? 133)%N || (n =? 160)%N.

(** [s.lstrip()] *)
Fixpoint lstrip (s : string) : string :=
  match s with
  | "" => ""
  | String c s' => if is_space c then lstrip s' else s
  end.

(** [s.rstrip()] *)
Fixpoint rstrip (s : string) : string :=
  match s with
  | "" => ""
  | String c s' =>
      match rstrip s' with
      | "" => if is_space c then "" else String c ""
      | r => String c r
      end
  end.

(** [s.strip()] *)
Definition strip (s : string) : string := rstrip (lstrip s).

(** [s * n] *)
Fixpoint times (s : string) (n : nat) : string :=
  match n with
  | O => ""
  | S n' => s +:+ times s n'
  end.

(** [str(n)] for a non-negative integer. *)
Definition str_of_nat (n : nat) : string :=
  NilEmpty.string_of_uint (Nat.to_uint n).

(** [str(b)] *)
Definition str_of_bool (b : bool) : string := if b then "True" else "False".

(** The double quote character. *)
Definition dquote : string := String "034"%char "".

End PyText.

(** ** [run_git_command], [get_staged_changes], [get_unstaged_changes] *)

(** How the call [subprocess.run(..., capture_output=True, text=True,
    check=True)] ends. It returns, the exit status being zero, and
    [stdout] is [result.stdout]: the text as [subprocess] hands it over,
    decoded and with its line ends translated to line breaks. Or it raises
    [CalledProcessError] for a non-zero status, [error_text] being the text
    of the exception. Or it raises another exception (the program cannot
    be started, its output cannot be decoded), which the code does not
    catch. *)
Inductive GitRun :=
| Completed (stdout : string)
| NonZeroExit (error_text : string)
| OtherException.

(** The environment: what running a command line would give. *)
Definition Git := list string → GitRun.

(** A computation that hands lines to [print] and returns a value, or is
    ended by an exception ([None]). *)
Definition Printing (A : Type) : Type := option (list string * A).

Definition run_git_command (git : Git) (command : list string) : Printing string :=
  match git ("git" :: command) with
  | Completed stdout => Some ([], PyText.strip stdout)
  | NonZeroExit error_text =>
      Some (["Error running git command: " +:+ error_text], "")
  | OtherException => None
  end.

Definition get_staged_changes (git : Git) : Printing string :=
  run_git_command git ["diff"; "--cached"].

Definition get_unstaged_changes (git : Git) : Printing string :=
  run_git_command git ["diff"].

(** ** [generate_commit_message] and [main] *)

Definition no_staged_changes : string :=
  "No staged changes found. Stage your changes first with 'git add'.".

(** The lines printed for a classified analysis (source lines 183-199). *)
Definition report (a : Analysis) (c : Classification) : list string :=
  [ "Suggested commit message:";
    PyText.times "=" 50;
    subject c;
    "";
    "Analysis:";
    "- Type: " +:+ commit_type c;
    "- Scope: " +:+ (if String.eqb (scope c) "" then "general" else scope c);
    "- Files changed: " +:+ PyText.str_of_nat (size (affected_paths a));
    "- Lines added: " +:+ PyText.str_of_nat (lines_added a);
    "- Lines deleted: " +:+ PyText.str_of_nat (lines_deleted a);
    "- New files: " +:+ PyText.str_of_bool (has_new_files a);
    "- Test files: " +:+ PyText.str_of_nat (test_files a);
    "- Config files: " +:+ PyText.str_of_nat (config_files a);
    "- Doc files: " +:+ PyText.str_of_nat (doc_files a);
    "";
    "To use this message:";
    "git commit -m " +:+ PyText.dquote +:+ subject c +:+ PyText.dquote ].

(** The lines the function prints; [None] when an exception ends it. *)
Definition generate_commit_message (git : Git) (it_paths it_scopes : SetIter)
  : option (list string) :=
  match get_staged_changes git with
  | None => None
  | Some (printed, staged_diff) =>
      if String.eqb staged_diff "" then Some (printed ++ [no_staged_changes])%list
      else
        let analysis := analyze_changes staged_diff in
        match classify it_paths it_scopes analysis with
        | None => None
        | Some c => Some (printed ++ report analysis c)%list
        end
  end.

Definition help_text : list string :=
  [ "Git Commit Message Generator";
    "";
    "Analyzes staged git changes and suggests a commit message";
    "following conventional commit standards.";
    "";
    "Usage:";
    "  python commit-generator.py    # Generate commit message";
    "  python commit-generator.py --help  # Show this help" ].

(** [len(sys.argv) > 1 and sys.argv[1] == '--help'] *)
Definition wants_help (argv : list string) : bool :=
  (1 <? length argv) && String.eqb (nth 1 argv "") "--help".

(** [main], with [sys.argv] as an argument. *)
Definition main (argv : list string) (git : Git) (it_paths it_scopes : SetIter)
  : option (list string) :=
  if wants_help argv then Some help_text
  else generate_commit_message git it_paths it_scopes.

(** ** The name format of the skill validator

    [skill-creator/validate-skill.py] tests the skill name and the
    directory name with [re.match(r'^[a-z0-9]+(-[a-z0-9]+)*$', name)]
    (source lines 74 and 124). *)

Module SkillName.

(** The class [[a-z0-9]]. *)
Definition is_name_char (c : ascii) : bool :=
  let n := N_of_ascii c in
  ((97 <=? n)%N && (n <=? 122)%N) || ((48 <=? n)%N && (n <=? 57)%N).

(** The pattern after [^], read from left to right; [in_run] tells whether
    the current [[a-z0-9]+] has read a character. A hyphen closes a run
    and opens the next; [$] holds at the end of the string and before a
    line break that ends it. *)
Fixpoint name_rest (in_run : bool) (s : string) : bool :=
  match s with
  | "" => in_run
  | String c s' =>
      if is_name_char c then name_rest true s'
      else if Ascii.eqb c "-" then in_run && name_rest false s'
      else if Ascii.eqb c HeaderRe.newline then in_run && String.eqb s' ""
      else false
  end.

(** Whether [re.match] finds a match. *)
Definition name_format_ok (s : string) : bool := name_rest false s.

End SkillName.

(** ** Notions the properties are stated with *)

(** The line break, as a string. *)
Definition nl : string := String HeaderRe.newline "".

(** A string without a line break, as every line of a diff is. *)
Definition newline_free (s : string) : Prop := PyStr.contains nl s = false.

(** The pattern [(.+) b/(.+)] on a whole line, as a relation: a first
    group, the separator, a second group, neither group empty. *)
Definition splits_at_b (s g1 g2 : string) : Prop :=
  g1 ≠ "" ∧ g2 ≠ "" ∧ s = g1 +:+ " b/" +:+ g2.

Global Instance Bucket_eq_dec : EqDecision Bucket.
Proof. solve_decision. Defined.

(** The new paths of the file headers of a diff, one per header line, in
    the order of the lines. *)
Definition header_paths (lines : list string) : list string :=
  omap header_path lines.

(** How many of the given header paths fall into bucket [b]. *)
Definition bucket_count (b : Bucket) (paths : list string) : nat :=
  length (filter (λ p, bucket p = b) paths).

(** A file-status line (source lines 78-83). *)
Definition is_status_line (line : string) : bool :=
  PyStr.startswith line "new file mode"
  || PyStr.startswith line "deleted file mode"
  || PyStr.startswith line "rename".

(** A changed line (source lines 86-89). *)
Definition is_added_line (line : string) : bool :=
  PyStr.startswith line "+" && negb (PyStr.startswith line "+++").

Definition is_deleted_line (line : string) : bool :=
  PyStr.startswith line "-" && negb (PyStr.startswith line "---").

(** The candidates of the scope rule, in a fixed order of the paths: what
    the affected paths with more than one part contribute. *)
Definition scope_candidates (a : Analysis) : list string :=
  collect_scopes (elements (affected_paths a)).

(** The candidates as the specification words the rule: every affected
    path contributes its first part, lowercased, unless it is reserved. *)
Definition claimed_scope_of_path (path : string) : list string :=
  match PurePath.parts path with
  | first :: _ =>
      let scope := PyStr.lower first in
      if bool_decide (scope ∈ reserved_scopes) then [] else [scope]
  | [] => []
  end.

Definition claimed_candidates (a : Analysis) : list string :=
  flat_map claimed_scope_of_path (elements (affected_paths a)).

(** The choice among the candidates: none gives the empty scope, a single
    one gives itself, several give one that no other occurs more often than. *)
Definition chosen_from (cands : list string) (r : string) : Prop :=
  match cands with
  | [] => r = ""
  | [c] => r = c
  | _ => r ∈ cands ∧ ∀ c, c ∈ cands → count cands c ≤ count cands r
  end.

(** A line on which no branch of the scan acts: no file header, no
    file-status line, no changed line. *)
Definition is_inert_line (line : string) : Prop :=
  header_path line = None
  ∧ is_status_line line = false
  ∧ is_added_line line = false
  ∧ is_deleted_line line = false.

(** The extension as the specification words it: the text of the last
    path component from its last dot to the end, lowercased; empty when
    the component has no dot. *)
Definition claimed_extension (path : string) : string :=
  let nm := PurePath.name path in
  let i := PyStr.rfind "." nm in
  if (0 <=? i)%Z then PyStr.lower (PyStr.drop (Z.to_nat i) nm) else "".

(** The types [determine_commit_type] returns and the texts
    [generate_subject] has for them. *)
Definition inferred_types : list string :=
  ["test"; "docs"; "chore"; "feat"; "refactor"; "fix"].

Definition inferred_descriptions : list string :=
  ["add new functionality"; "implement new feature"; "fix issue";
   "update documentation"; "add tests"; "refactor code"; "update configuration"].

(** ** Sample diffs *)

(** Two file headers that name the same path. *)
Definition twice_test_diff : string :=
  "diff --git a/test.py b/test.py" +:+ nl +:+
  "diff --git a/test.py b/test.py".

(** What [git diff] prints when a file turns into a symbolic link: the
    change is shown as a deletion and a creation, each under its own file
    header, and the two headers name the same path. *)
Definition type_change_diff : string :=
  "diff --git a/tests/fixture b/tests/fixture" +:+ nl +:+
  "deleted file mode 100644" +:+ nl +:+
  "index 8c7e5a6..0000000" +:+ nl +:+
  "--- a/tests/fixture" +:+ nl +:+
  "+++ /dev/null" +:+ nl +:+
  "@@ -1 +0,0 @@" +:+ nl +:+
  "-data" +:+ nl +:+
  "diff --git a/tests/fixture b/tests/fixture" +:+ nl +:+
  "new file mode 120000" +:+ nl +:+
  "index 0000000..1de5659" +:+ nl +:+
  "--- /dev/null" +:+ nl +:+
  "+++ b/tests/fixture" +:+ nl +:+
  "@@ -0,0 +1 @@" +:+ nl +:+
  "+target" +:+ nl +:+
  "\ No newline at end of file".

(** Two file headers with different paths: a test file and a document. *)
Definition two_files_diff : string :=
  "diff --git a/tests/a.py b/tests/a.py" +:+ nl +:+
  "+assert True" +:+ nl +:+
  "diff --git a/README.md b/README.md" +:+ nl +:+
  "-old" +:+ nl +:+
  "+new".

(** Two test files, again with different paths. *)
Definition two_tests_diff : string :=
  "diff --git a/tests/a.py b/tests/a.py" +:+ nl +:+
  "+assert True" +:+ nl +:+
  "diff --git a/src/b_test.go b/src/b_test.go" +:+ nl +:+
  "-old".

(** A header for a file at the top of the tree. *)
Definition makefile_diff : string := "diff --git a/Makefile b/Makefile".

Definition frontend_diff : string := "diff --git a/frontend/app.js b/frontend/app.js".

Definition src_diff : string := "diff --git a/src/app.js b/src/app.js".

(** A file-status line with no file header before it. *)
Definition new_file_only_diff : string := "new file mode 100644".

(** Ten added and two deleted lines and nothing else on record. *)
Definition growth : Analysis := mkAnalysis false false false false ∅ ∅ 10 2 0 0 0.

(** Two added and ten deleted lines. *)
Definition shrinkage : Analysis := mkAnalysis false false false false ∅ ∅ 2 10 0 0 0.

(** A header for a file whose name starts with a dot. *)
Definition env_diff : string := "diff --git a/.env b/.env".

(** [n] added lines, each after a line break. *)
Fixpoint added_block (n : nat) : string :=
  match n with
  | O => ""
  | S n' => nl +:+ "+A line of the guide." +:+ added_block n'
  end.

(** One new file, docs/guide.md, with 100 added lines. *)
Definition guide_diff : string :=
  "diff --git a/docs/guide.md b/docs/guide.md" +:+ nl +:+
  "new file mode 100644" +:+ nl +:+
  "index 0000000..3b18e51" +:+ nl +:+
  "--- /dev/null" +:+ nl +:+
  "+++ b/docs/guide.md" +:+ nl +:+
  "@@ -0,0 +1,100 @@" +:+ added_block 100.

(** ** Notions for the further properties *)

(** How many of the lines pass a test. *)
Definition count_lines (test : string → bool) (lines : list string) : nat :=
  length (filter (λ line, test line = true) lines).

(** The extension a header path contributes, possibly empty (source line 65). *)
Definition extension_of (new_path : string) : string :=
  PyStr.lower (PurePath.suffix new_path).

(** The extensions the file headers contribute, the empty ones left out. *)
Definition header_extensions (lines : list string) : list string :=
  filter (λ ext, ext ≠ "") (extension_of <$> header_paths lines).

(** Two analyses put together: flags by disjunction, sets by union,
    counters by sum. *)
Definition combine (a1 a2 : Analysis) : Analysis :=
  {| has_new_files := has_new_files a1 || has_new_files a2;
     has_deleted_files := has_deleted_files a1 || has_deleted_files a2;
     has_modified_files := has_modified_files a1 || has_modified_files a2;
     has_renamed_files := has_renamed_files a1 || has_renamed_files a2;
     modified_extensions := modified_extensions a1 ∪ modified_extensions a2;
     affected_paths := affected_paths a1 ∪ affected_paths a2;
     lines_added := lines_added a1 + lines_added a2;
     lines_deleted := lines_deleted a1 + lines_deleted a2;
     test_files := test_files a1 + test_files a2;
     config_files := config_files a1 + config_files a2;
     doc_files := doc_files a1 + doc_files a2 |}.

(** Three files in two directories, two of them in the same one. *)
Definition three_files_diff : string :=
  "diff --git a/api/a.py b/api/a.py" +:+ nl +:+
  "diff --git a/web/b.js b/web/b.js" +:+ nl +:+
  "diff --git a/web/c.js b/web/c.js".

(** A new file and nothing deleted; a deleted file and nothing new. *)
Definition added_file_diff : string :=
  "diff --git a/main.py b/main.py" +:+ nl +:+
  "new file mode 100644" +:+ nl +:+
  "+print(1)".

Definition removed_file_diff : string :=
  "diff --git a/main.py b/main.py" +:+ nl +:+
  "deleted file mode 100644" +:+ nl +:+
  "-print(1)".

(** A string made of whitespace only. *)
Fixpoint all_space (s : string) : bool :=
  match s with
  | "" => true
  | String c s' => PyText.is_space c && all_space s'
  end.

(** An environment in which every git command prints the same text. *)
Definition git_printing (stdout : string) : Git := λ _, Completed stdout.

(** [sep.join(words)] *)
Fixpoint join (sep : string) (words : list string) : string :=
  match words with
  | [] => ""
  | [w] => w
  | w :: ws => w +:+ sep +:+ join sep ws
  end.

(** A string made of characters of [[a-z0-9]] only. *)
Fixpoint all_name_chars (s : string) : bool :=
  match s with
  | "" => true
  | String c s' => SkillName.is_name_char c && all_name_chars s'
  end.

(** A non-empty run of such characters. *)
Definition is_word (w : string) : Prop := w ≠ "" ∧ all_name_chars w = true.

(** What follows the first word of a name: each further word after a
    hyphen, then the ending [fin]. *)
Fixpoint hyphen_tail (fin : string) (words : list string) : string :=
  match words with
  | [] => fin
  | w :: ws => "-" +:+ w +:+ hyphen_tail fin ws
  end.

(** Two documents; a configuration file next to a source file. *)
Definition two_docs_diff : string :=
  "diff --git a/README.md b/README.md" +:+ nl +:+
  "+More." +:+ nl +:+
  "diff --git a/guide/intro.txt b/guide/intro.txt" +:+ nl +:+
  "-Less.".

Definition config_diff : string :=
  "diff --git a/package.json b/package.json" +:+ nl +:+
  "+  x" +:+ nl +:+
  "diff --git a/src/main.py b/src/main.py" +:+ nl +:+
  "+pass".

(** * The primitives on sample inputs *)

(** Both groups of the header pattern are greedy: the first runs to the
    last [" b/"] that still leaves a character for the second. *)
Example search_plain :
  HeaderRe.search "diff --git a/src/app.js b/src/app.js" = Some ("src/app.js", "src/app.js").
Proof. reflexivity. Qed.

Example search_greedy :
  HeaderRe.search "diff --git a/x b/y b/z" = Some ("x b/y", "z").
Proof. reflexivity. Qed.

Example search_needs_both_groups :
  HeaderRe.search "diff --git a/ b/y" = None ∧ HeaderRe.search "diff --git a/x b/" = None.
Proof. split; reflexivity. Qed.

Example split_keeps_empty_pieces :
  PyStr.split "/" "a//b/" = ["a"; ""; "b"; ""] ∧ PyStr.split "/" "" = [""].
Proof. split; reflexivity. Qed.

Example parts_samples :
  PurePath.parts "frontend/app.js" = ["frontend"; "app.js"]
  ∧ PurePath.parts "./a//b/" = ["a"; "b"]
  ∧ PurePath.parts "/etc/hosts" = ["/"; "etc"; "hosts"]
  ∧ PurePath.parts "//host/x" = ["//"; "host"; "x"]
  ∧ PurePath.parts "Makefile" = ["Makefile"].
Proof. repeat split; reflexivity. Qed.

Example suffix_samples :
  PurePath.suffix "pkg/archive.tar.GZ" = ".GZ"
  ∧ PurePath.suffix "conf/.env" = ""
  ∧ PurePath.suffix "notes." = ""
  ∧ PurePath.suffix "Makefile" = "".
Proof. repeat split; reflexivity. Qed.

Example lower_sample : PyStr.lower "Docs/README.md" = "docs/readme.md".
Proof. reflexivity. Qed.

Example bucket_priority :
  bucket "tests/config.md" = TestFile
  ∧ bucket "config/readme.md" = ConfigFile
  ∧ bucket "README.md" = DocFile
  ∧ bucket "main.py" = Unclassified.
Proof. repeat split; reflexivity. Qed.

(** * Facts about the string primitives *)

Section Strings.

Implicit Types (s : string) (c : ascii).

Lemma append_cons c s1 s2 : String c s1 +:+ s2 = String c (s1 +:+ s2).
Proof. reflexivity. Qed.

Lemma length_app s1 s2 :
  String.length (s1 +:+ s2) = String.length s1 + String.length s2.
Proof.
  induction s1 as [|c s1 IH]; [done|]. rewrite append_cons. cbn. by rewrite IH.
Qed.

Lemma drop_app s1 s2 : PyStr.drop (String.length s1) (s1 +:+ s2) = s2.
Proof. induction s1 as [|c s1 IH]; [by destruct s2|]. by rewrite append_cons. Qed.

Lemma startswith_cons c s c' :
  PyStr.startswith (String c s) (String c' "") = Ascii.eqb c' c.
Proof.
  unfold PyStr.startswith. cbn.
  destruct (ascii_dec c' c) as [->|Hne].
  - rewrite Ascii.eqb_refl. by destruct s.
  - by apply Ascii.eqb_neq in Hne as ->.
Qed.

Lemma contains_cons c' c s :
  PyStr.contains (String c' "") (String c s)
  = Ascii.eqb c' c || PyStr.contains (String c' "") s.
Proof.
  cbn [PyStr.contains]. f_equal. apply (startswith_cons c s c').
Qed.

(** A string without the separator is a single piece. *)
Lemma split_pieces_no_sep sep s :
  PyStr.contains (String sep "") s = false → PyStr.split_pieces sep s = (s, []).
Proof.
  induction s as [|c s IH]; [done|].
  rewrite contains_cons. intros [Hc Hs]%orb_false_elim.
  cbn [PyStr.split_pieces]. rewrite (IH Hs).
  rewrite Ascii.eqb_sym in Hc. by rewrite Hc.
Qed.

Lemma rfind_absent c s :
  PyStr.contains (String c "") s = false → PyStr.rfind c s = (-1)%Z.
Proof.
  induction s as [|c' s IH]; [done|].
  rewrite contains_cons. intros [Hc Hs]%orb_false_elim.
  cbn [PyStr.rfind]. rewrite (IH Hs). cbn.
  rewrite Ascii.eqb_sym in Hc. by rewrite Hc.
Qed.

(** The last occurrence: nothing after it is [c]. *)
Lemma rfind_last c s1 s2 :
  PyStr.contains (String c "") s2 = false →
  PyStr.rfind c (s1 +:+ String c s2) = Z.of_nat (String.length s1).
Proof.
  intros Hs2. induction s1 as [|c' s1 IH].
  - change ("" +:+ String c s2) with (String c s2).
    cbn [PyStr.rfind]. rewrite (rfind_absent _ _ Hs2). cbn.
    by rewrite Ascii.eqb_refl.
  - rewrite append_cons. cbn [PyStr.rfind String.length]. rewrite IH.
    destruct (Z.leb_spec 0 (Z.of_nat (String.length s1))); lia.
Qed.

(** A prefix and what follows it make up the string. *)
Lemma prefix_split p s :
  String.prefix p s = true → s = p +:+ PyStr.drop (String.length p) s.
Proof.
  revert s. induction p as [|c p IH]; intros s; [by destruct s|].
  destruct s as [|c' s]; [done|]. cbn [String.prefix].
  destruct (ascii_dec c c') as [<-|]; [|done].
  intros Hp. rewrite append_cons. cbn [String.length PyStr.drop]. f_equal. by apply IH.
Qed.

End Strings.

(** * Properties of the header pattern *)

Section Pattern.

Implicit Types (s g h : string) (c : ascii).

Lemma newline_free_cons c s :
  newline_free (String c s) ↔ c ≠ HeaderRe.newline ∧ newline_free s.
Proof.
  unfold newline_free, nl. rewrite contains_cons, orb_false_iff.
  by rewrite Ascii.eqb_sym, Ascii.eqb_neq.
Qed.

Lemma newline_free_drop n s : newline_free s → newline_free (PyStr.drop n s).
Proof.
  revert s. induction n as [|n IH]; intros [|c s]; cbn [PyStr.drop]; try done.
  intros [_ Hs]%newline_free_cons. by apply IH.
Qed.

(** The pieces of [split] hold no separator: the lines of a diff hold no
    line break. *)
Lemma split_pieces_free sep s :
  PyStr.contains (String sep "") (PyStr.split_pieces sep s).1 = false
  ∧ Forall (λ x, PyStr.contains (String sep "") x = false) (PyStr.split_pieces sep s).2.
Proof.
  induction s as [|c s [IH1 IH2]]; [by split|].
  cbn [PyStr.split_pieces]. destruct (PyStr.split_pieces sep s) as [piece pieces].
  cbn [fst snd] in *. destruct (Ascii.eqb c sep) eqn:Hc; cbn [fst snd].
  - split; [done|]. by constructor.
  - split; [|done]. rewrite contains_cons, IH1, Ascii.eqb_sym, Hc. done.
Qed.

Lemma diff_lines_newline_free diff line :
  line ∈ diff_lines diff → newline_free line.
Proof.
  unfold diff_lines, PyStr.split, newline_free, nl.
  destruct (split_pieces_free HeaderRe.newline diff) as [H1 H2].
  destruct (PyStr.split_pieces HeaderRe.newline diff) as [piece pieces].
  cbn [fst snd] in *. intros [->|Hin]%elem_of_cons; [done|].
  by apply (proj1 (Forall_forall _ _) H2).
Qed.

Lemma dot_star_newline_free s : newline_free s → HeaderRe.dot_star s = s.
Proof.
  induction s as [|c s IH]; [done|]. intros [Hc Hs]%newline_free_cons.
  cbn [HeaderRe.dot_star]. apply Ascii.eqb_neq in Hc as ->. by rewrite IH.
Qed.

Lemma dot_plus_newline_free s :
  newline_free s → HeaderRe.dot_plus s = if String.eqb s "" then None else Some s.
Proof.
  intros Hs. unfold HeaderRe.dot_plus. rewrite (dot_star_newline_free s Hs).
  by destruct s.
Qed.

(** What [groups] returns splits the line at a [" b/"]. *)
Lemma groups_sound s g1 g2 :
  newline_free s → HeaderRe.groups s = Some (g1, g2) → splits_at_b s g1 g2.
Proof.
  revert g1. induction s as [|c s IH]; intros g1 Hfree; [done|].
  apply newline_free_cons in Hfree as [Hc Hs].
  cbn [HeaderRe.groups]. apply Ascii.eqb_neq in Hc as ->.
  destruct (HeaderRe.groups s) as [[g1' g2']|].
  - intros [= <- <-]. destruct (IH g1' Hs eq_refl) as (_ & Hg2 & ->).
    by repeat split.
  - destruct (PyStr.startswith s " b/") eqn:Hb; [|done].
    rewrite (dot_plus_newline_free _ (newline_free_drop 3 s Hs)).
    destruct (String.eqb_spec (PyStr.drop 3 s) "") as [|Hne]; [done|].
    intros [= <- <-]. repeat split; [done..|].
    change (String c "" +:+ " b/" +:+ PyStr.drop 3 s)
      with (String c (" b/" +:+ PyStr.drop 3 s)).
    f_equal. apply (prefix_split " b/" s Hb).
Qed.

(** It is found whenever the line can be split, and no split has a longer
    first group: the first [(.+)] is greedy. *)
Lemma groups_greedy s h1 h2 :
  newline_free s → splits_at_b s h1 h2 →
  ∃ g1 g2, HeaderRe.groups s = Some (g1, g2)
           ∧ String.length h1 ≤ String.length g1.
Proof.
  revert h1. induction s as [|c s IH]; intros h1 Hfree (Hh1 & Hh2 & Hs).
  { destruct h1; [done|]. by rewrite append_cons in Hs. }
  apply newline_free_cons in Hfree as [Hc Hfree].
  destruct h1 as [|c' h1]; [done|]. rewrite append_cons in Hs.
  injection Hs as <- Hs.
  cbn [HeaderRe.groups]. apply Ascii.eqb_neq in Hc as ->.
  destruct (String.eqb_spec h1 "") as [->|Hne].
  - change (s = " b/" +:+ h2) in Hs.
    destruct (HeaderRe.groups s) as [[g1' g2']|].
    + eexists _, _. split; [done|]. cbn. lia.
    + rewrite Hs. change (PyStr.startswith (" b/" +:+ h2) " b/") with (String.prefix "" h2).
      change (PyStr.drop 3 (" b/" +:+ h2)) with h2.
      assert (String.prefix "" h2 = true) as -> by (by destruct h2).
      rewrite dot_plus_newline_free.
      * apply String.eqb_neq in Hh2 as ->. eexists _, _. by split.
      * rewrite Hs in Hfree. by apply (newline_free_drop 3) in Hfree.
  - destruct (IH h1 Hfree) as (g1' & g2' & -> & Hlen); [done|].
    eexists _, _. split; [done|]. cbn. lia.
Qed.

(** On a line that starts with the literal part, the search matches there. *)
Lemma search_at_head s :
  PyStr.startswith s "diff --git a/" = true →
  HeaderRe.groups (PyStr.drop 13 s) ≠ None →
  HeaderRe.search s = HeaderRe.groups (PyStr.drop 13 s).
Proof.
  intros Hhead Hgroups. destruct s as [|c s]; [done|].
  cbn [HeaderRe.search]. unfold HeaderRe.match_here. rewrite Hhead.
  by destruct (HeaderRe.groups _).
Qed.

End Pattern.

(** * Properties of [analyze_changes] *)

Section Scan.

Implicit Types (a : Analysis) (line : string) (lines : list string).

Lemma analyze_line_header a line p :
  header_path line = Some p → analyze_line a line = record_file p a.
Proof.
  unfold header_path, analyze_line.
  destruct (PyStr.startswith line "diff --git"); [|done].
  destruct (HeaderRe.search line) as [[g1 g2]|]; [|done].
  by intros [= ->].
Qed.

(** A line that is no file header leaves the per-file fields alone. *)
Lemma analyze_line_no_header a line :
  header_path line = None →
  affected_paths (analyze_line a line) = affected_paths a
  ∧ modified_extensions (analyze_line a line) = modified_extensions a
  ∧ test_files (analyze_line a line) = test_files a
  ∧ config_files (analyze_line a line) = config_files a
  ∧ doc_files (analyze_line a line) = doc_files a.
Proof.
  unfold header_path, analyze_line.
  destruct (PyStr.startswith line "diff --git").
  - destruct (HeaderRe.search line) as [[g1 g2]|]; [done|]. by intros _.
  - intros _. repeat case_match; done.
Qed.

Lemma header_paths_cons line lines :
  header_paths (line :: lines) =
    match header_path line with
    | Some p => p :: header_paths lines
    | None => header_paths lines
    end.
Proof. unfold header_paths. simpl. by destruct (header_path line). Qed.

(** The set of affected paths is the set of the headers' new paths. *)
Lemma fold_affected_paths lines a :
  affected_paths (fold_left analyze_line lines a) =
    list_to_set (header_paths lines) ∪ affected_paths a.
Proof.
  revert a. induction lines as [|line lines IH]; intros a; cbn [fold_left].
  - cbn. by rewrite union_empty_l_L.
  - rewrite IH, header_paths_cons.
    destruct (header_path line) as [p|] eqn:Hp.
    + rewrite (analyze_line_header _ _ _ Hp), list_to_set_cons. cbn.
      by rewrite (comm_L (∪) {[p]} (list_to_set _)), (assoc_L (∪)).
    + by destruct (analyze_line_no_header a line Hp) as (-> & _).
Qed.

Lemma bucket_count_cons b p paths :
  bucket_count b (p :: paths) =
    (if decide (bucket p = b) then 1 else 0) + bucket_count b paths.
Proof.
  unfold bucket_count. rewrite filter_cons. by destruct (decide (bucket p = b)).
Qed.

(** Each counter counts header lines, once per line. *)
Lemma fold_counters lines a :
  test_files (fold_left analyze_line lines a) =
    test_files a + bucket_count TestFile (header_paths lines)
  ∧ config_files (fold_left analyze_line lines a) =
    config_files a + bucket_count ConfigFile (header_paths lines)
  ∧ doc_files (fold_left analyze_line lines a) =
    doc_files a + bucket_count DocFile (header_paths lines).
Proof.
  revert a. induction lines as [|line lines IH]; intros a; cbn [fold_left].
  - unfold bucket_count. simpl. lia.
  - destruct (IH (analyze_line a line)) as (-> & -> & ->).
    rewrite header_paths_cons.
    destruct (header_path line) as [p|] eqn:Hp.
    + rewrite (analyze_line_header _ _ _ Hp), !bucket_count_cons. simpl.
      destruct (bucket p); simpl; lia.
    + destruct (analyze_line_no_header a line Hp) as (_ & _ & -> & -> & ->). lia.
Qed.

Lemma bucket_counts_le paths :
  bucket_count TestFile paths + bucket_count ConfigFile paths
    + bucket_count DocFile paths ≤ length paths.
Proof.
  induction paths as [|p paths IH]; [done|].
  rewrite !bucket_count_cons. simpl. destruct (bucket p); simpl; lia.
Qed.

Lemma bucket_count_all b paths :
  Forall (λ p, bucket p = b) paths → bucket_count b paths = length paths.
Proof.
  induction 1 as [|p paths Hp _ IH]; [done|].
  rewrite bucket_count_cons, IH. simpl. by rewrite decide_True.
Qed.

Lemma analyze_affected_paths diff :
  affected_paths (analyze_changes diff) = list_to_set (header_paths (diff_lines diff)).
Proof.
  unfold analyze_changes. rewrite fold_affected_paths. apply union_empty_r_L.
Qed.

Lemma analyze_counters diff :
  test_files (analyze_changes diff) = bucket_count TestFile (header_paths (diff_lines diff))
  ∧ config_files (analyze_changes diff) = bucket_count ConfigFile (header_paths (diff_lines diff))
  ∧ doc_files (analyze_changes diff) = bucket_count DocFile (header_paths (diff_lines diff)).
Proof.
  unfold analyze_changes.
  by destruct (fold_counters (diff_lines diff) initial) as (-> & -> & ->).
Qed.

Lemma analyze_line_modified a line :
  has_modified_files (analyze_line a line) = has_modified_files a.
Proof. unfold analyze_line. repeat case_match; done. Qed.

End Scan.

(** * The claims about [analyze_changes] *)

Lemma fold_modified_files lines a :
  has_modified_files (fold_left analyze_line lines a) = has_modified_files a.
Proof.
  revert a. induction lines as [|line lines IH]; intros a; cbn [fold_left]; [done|].
  by rewrite IH, analyze_line_modified.
Qed.

(** C4. Whatever the diff, the analysis has [has_modified_files] false:
    no branch of the scan writes that key. *)
Theorem has_modified_files_never_set (diff : string) :
  has_modified_files (analyze_changes diff) = false.
Proof. unfold analyze_changes. by rewrite fold_modified_files. Qed.

(** C1. The code breaks the bound
    [test_files + config_files + doc_files <= |affected_paths|] when one
    path is named by two file headers, as in the diff git prints for a
    file whose type changes: the path set holds the path once, each
    counter counts it once per header. *)
Theorem duplicated_header_exceeds_paths :
  (header_paths (diff_lines twice_test_diff) = ["test.py"; "test.py"]
   ∧ size (affected_paths (analyze_changes twice_test_diff)) = 1
   ∧ test_files (analyze_changes twice_test_diff) = 2
   ∧ size (affected_paths (analyze_changes twice_test_diff))
     < test_files (analyze_changes twice_test_diff)
       + config_files (analyze_changes twice_test_diff)
       + doc_files (analyze_changes twice_test_diff))
  ∧ (header_paths (diff_lines type_change_diff) = ["tests/fixture"; "tests/fixture"]
     ∧ size (affected_paths (analyze_changes type_change_diff)) = 1
     ∧ test_files (analyze_changes type_change_diff) = 2
     ∧ size (affected_paths (analyze_changes type_change_diff))
       < test_files (analyze_changes type_change_diff)
         + config_files (analyze_changes type_change_diff)
         + doc_files (analyze_changes type_change_diff)).
Proof.
  split; (split; [by vm_compute|]); (split; [by vm_compute|]);
    (split; [by vm_compute|]); vm_compute; lia.
Qed.

(** Where every file header names a path of its own the bound holds: the
    three counters together do not exceed the number of affected paths. *)
Theorem counters_bounded_by_paths (diff : string) :
  NoDup (header_paths (diff_lines diff)) →
  test_files (analyze_changes diff) + config_files (analyze_changes diff)
    + doc_files (analyze_changes diff)
  ≤ size (affected_paths (analyze_changes diff)).
Proof.
  intros Hnodup.
  destruct (analyze_counters diff) as (-> & -> & ->).
  rewrite analyze_affected_paths, size_list_to_set by done.
  apply bucket_counts_le.
Qed.

Lemma counters_bounded_by_paths_witness :
  NoDup (header_paths (diff_lines two_files_diff))
  ∧ test_files (analyze_changes two_files_diff)
      + config_files (analyze_changes two_files_diff)
      + doc_files (analyze_changes two_files_diff)
    ≤ size (affected_paths (analyze_changes two_files_diff)).
Proof.
  assert (Hnodup : NoDup (header_paths (diff_lines two_files_diff))).
  { apply (bool_decide_unpack _). by vm_compute. }
  split; [exact Hnodup | exact (counters_bounded_by_paths two_files_diff Hnodup)].
Defined.

Lemma test_marker_bucket p :
  PyStr.contains "test" (PyStr.lower p) = true → bucket p = TestFile.
Proof.
  intros Hp. unfold bucket, any_in, test_markers. cbn [existsb]. by rewrite Hp.
Qed.

(** C2. The code breaks "every affected path contains test, so the
    type is test" on the same diffs: rule 1 compares the per-header
    counter with the size of the path set, so with one test path named by
    two headers it does not fire and the type is [fix]. *)
Theorem duplicated_test_header_is_fix :
  (affected_paths (analyze_changes twice_test_diff) ≠ ∅
   ∧ (∀ p, p ∈ affected_paths (analyze_changes twice_test_diff) →
           PyStr.contains "test" (PyStr.lower p) = true)
   ∧ determine_commit_type (analyze_changes twice_test_diff) = "fix")
  ∧ (affected_paths (analyze_changes type_change_diff) ≠ ∅
     ∧ (∀ p, p ∈ affected_paths (analyze_changes type_change_diff) →
             PyStr.contains "test" (PyStr.lower p) = true)
     ∧ determine_commit_type (analyze_changes type_change_diff) = "fix").
Proof.
  assert (Hpaths : affected_paths (analyze_changes twice_test_diff) = {[ "test.py" ]})
    by (by vm_compute).
  assert (Hpaths' : affected_paths (analyze_changes type_change_diff)
                    = {[ "tests/fixture" ]}) by (by vm_compute).
  rewrite Hpaths, Hpaths'. split; (split; [|split]).
  - apply (non_empty_singleton_L (C := gset string)).
  - intros p ->%elem_of_singleton. by vm_compute.
  - by vm_compute.
  - apply (non_empty_singleton_L (C := gset string)).
  - intros p ->%elem_of_singleton. by vm_compute.
  - by vm_compute.
Qed.

(** Where every file header names a path of its own, there is an affected
    path, and every affected path contains "test" once lowercased, rule 1
    fires: the type is [test], whatever the other fields hold. *)
Theorem all_test_paths_give_test (diff : string) :
  NoDup (header_paths (diff_lines diff)) →
  affected_paths (analyze_changes diff) ≠ ∅ →
  (∀ p, p ∈ affected_paths (analyze_changes diff) →
        PyStr.contains "test" (PyStr.lower p) = true) →
  determine_commit_type (analyze_changes diff) = "test".
Proof.
  intros Hnodup Hne Hall.
  assert (Hcount : test_files (analyze_changes diff)
                   = size (affected_paths (analyze_changes diff))).
  { destruct (analyze_counters diff) as (-> & _).
    rewrite analyze_affected_paths, size_list_to_set by done.
    apply bucket_count_all, Forall_forall. intros p Hp.
    apply test_marker_bucket, Hall.
    rewrite analyze_affected_paths. by apply elem_of_list_to_set. }
  assert (Hpos : 0 < size (affected_paths (analyze_changes diff))).
  { apply Nat.neq_0_lt_0. by intros ?%size_empty_inv%leibniz_equiv. }
  unfold determine_commit_type. rewrite Hcount.
  apply Nat.ltb_lt in Hpos. by rewrite Hpos, Nat.eqb_refl.
Qed.

Lemma all_test_paths_give_test_witness :
  determine_commit_type (analyze_changes two_tests_diff) = "test".
Proof.
  assert (Hpaths : affected_paths (analyze_changes two_tests_diff)
                   = {[ "tests/a.py"; "src/b_test.go" ]}) by (by vm_compute).
  apply (all_test_paths_give_test two_tests_diff).
  - apply (bool_decide_unpack _). by vm_compute.
  - apply (bool_decide_unpack _). by vm_compute.
  - rewrite Hpaths. intros p [->%elem_of_singleton | ->%elem_of_singleton]%elem_of_union;
      by vm_compute.
Defined.

(** * Properties of [determine_scope] *)

Section Scope.

Implicit Types (a : Analysis) (it : SetIter) (X : gset string).

Lemma elem_of_iter it X p : p ∈ iter it X ↔ p ∈ X.
Proof. by rewrite (iter_perm it X), elem_of_elements. Qed.

Lemma collect_scopes_perm (l l' : list string) :
  l ≡ₚ l' → collect_scopes l ≡ₚ collect_scopes l'.
Proof. intros Hl. unfold collect_scopes. by rewrite Hl. Qed.

Lemma count_perm (l l' : list string) x : l ≡ₚ l' → count l x = count l' x.
Proof. intros Hl. unfold count. by apply Permutation_count_occ. Qed.

Lemma chosen_from_perm (l l' : list string) r :
  l ≡ₚ l' → chosen_from l r → chosen_from l' r.
Proof.
  intros Hl. destruct l as [|x [|y l]].
  - by apply Permutation_nil_l in Hl as ->.
  - by apply Permutation_singleton_l in Hl as ->.
  - destruct l' as [|x' [|y' l']].
    + by apply Permutation_nil_r in Hl.
    + by apply Permutation_singleton_r in Hl.
    + cbn [chosen_from]. intros [Hr Hmax]. split.
      * by rewrite <- Hl.
      * intros c Hc. rewrite <- !(count_perm _ _ _ Hl). apply Hmax. by rewrite Hl.
Qed.

(** The running maximum of [max]: it is the start or a later element, and
    no element seen has a larger key. *)
Lemma fold_best (key : string → nat) rest x :
  let r := fold_left (λ best y, if (key best <? key y)%nat then y else best) rest x in
  (r = x ∨ r ∈ rest) ∧ key x ≤ key r ∧ ∀ y, y ∈ rest → key y ≤ key r.
Proof.
  revert x. induction rest as [|z rest IH]; intros x; cbn [fold_left].
  - split; [by left|]. split; [done|]. by intros y ?%elem_of_nil.
  - destruct (Nat.ltb_spec (key x) (key z)) as [Hlt|Hge].
    + destruct (IH z) as (Hin & Hz & Hrest). split; [|split].
      * right. destruct Hin as [->|Hin]; [left|by right].
      * lia.
      * intros y [->|Hy]%elem_of_cons; [done|by apply Hrest].
    + destruct (IH x) as (Hin & Hx & Hrest). split; [|split].
      * destruct Hin as [->|Hin]; [by left|right; by right].
      * done.
      * intros y [->|Hy]%elem_of_cons; [lia|by apply Hrest].
Qed.

Lemma py_max_spec (key : string → nat) (xs : list string) :
  xs ≠ [] →
  ∃ r, py_max key xs = Some r ∧ r ∈ xs ∧ ∀ y, y ∈ xs → key y ≤ key r.
Proof.
  destruct xs as [|x rest]; [done|]. intros _.
  destruct (fold_best key rest x) as (Hin & Hx & Hrest).
  eexists. split; [done|]. split.
  - destruct Hin as [->|Hin]; [left|by right].
  - intros y [->|Hy]%elem_of_cons; [done|by apply Hrest].
Qed.

(** [determine_scope] raises nothing and follows the rule on the
    candidates of the paths that have more than one part. *)
Lemma determine_scope_spec it_paths it_scopes a :
  ∃ r, determine_scope it_paths it_scopes a = Some r
       ∧ chosen_from (scope_candidates a) r.
Proof.
  unfold determine_scope, scope_candidates. case_bool_decide as Hempty.
  { exists "". split; [done|]. by rewrite Hempty, elements_empty. }
  pose proof (collect_scopes_perm _ _ (iter_perm it_paths (affected_paths a))) as Hperm.
  revert Hperm. generalize (collect_scopes (iter it_paths (affected_paths a))).
  intros scopes Hperm.
  cut (∃ r, match scopes with
            | [] => Some ""
            | [only] => Some only
            | _ => py_max (count scopes) (iter it_scopes (list_to_set scopes))
            end = Some r ∧ chosen_from scopes r).
  { intros (r & Hr & Hchosen). exists r. eauto using chosen_from_perm. }
  destruct scopes as [|x [|y rest]]; [by exists ""|by exists x|].
  set (scopes := x :: y :: rest).
  destruct (py_max_spec (count scopes) (iter it_scopes (list_to_set scopes)))
    as (r & Hr & Hin & Hmax).
  { intros Hnil. assert (Hx : x ∈ iter it_scopes (list_to_set scopes)).
    { apply elem_of_iter, elem_of_list_to_set. by left. }
    rewrite Hnil in Hx. by apply elem_of_nil in Hx. }
  exists r. split; [done|]. split.
  - by apply elem_of_iter, elem_of_list_to_set in Hin.
  - intros c Hc. by apply Hmax, elem_of_iter, elem_of_list_to_set.
Qed.

(** A path without a slash has at most one part, so nothing to offer. *)
Lemma scope_of_path_no_separator p :
  PyStr.contains "/" p = false → scope_of_path p = [].
Proof.
  intros Hp. unfold scope_of_path, PurePath.parts, PurePath.tail, PurePath.splitroot.
  assert (Hstart : PyStr.startswith p "/" = false).
  { destruct p as [|c s]; [done|].
    rewrite contains_cons in Hp. apply orb_false_elim in Hp as [Hc _].
    by rewrite startswith_cons. }
  rewrite Hstart. cbn [negb fst snd String.eqb].
  unfold PyStr.split. rewrite (split_pieces_no_sep "/" p Hp).
  rewrite filter_cons, filter_nil. by case_decide.
Qed.

Lemma collect_scopes_nil (paths : list string) :
  (∀ p, p ∈ paths → scope_of_path p = []) → collect_scopes paths = [].
Proof.
  induction paths as [|p paths IH]; intros Hall; [done|].
  unfold collect_scopes in *. cbn [flat_map].
  rewrite (Hall p) by left. apply IH. intros q Hq. apply Hall. by right.
Qed.

Lemma determine_scope_no_separator it_paths it_scopes a :
  (∀ p, p ∈ affected_paths a → PyStr.contains "/" p = false) →
  determine_scope it_paths it_scopes a = Some "".
Proof.
  intros Hall. unfold determine_scope. case_bool_decide; [done|].
  rewrite collect_scopes_nil; [done|].
  intros p Hp%elem_of_iter. by apply scope_of_path_no_separator, Hall.
Qed.

End Scope.

(** * The claims about the scope *)

Lemma makefile_paths :
  affected_paths (analyze_changes makefile_diff) = {[ "Makefile" ]}.
Proof. by vm_compute. Qed.

(** C3, as stated, fails: a file at the top of the tree has a first part
    that is not reserved, so the rule as worded makes it the scope; the
    code gives the empty scope, under every iteration order. *)
Lemma top_level_file_gives_no_scope :
  claimed_candidates (analyze_changes makefile_diff) = ["makefile"]
  ∧ (∀ it_paths it_scopes,
       determine_scope it_paths it_scopes (analyze_changes makefile_diff) = Some "")
  ∧ ¬ chosen_from (claimed_candidates (analyze_changes makefile_diff)) "".
Proof.
  assert (Hcands : claimed_candidates (analyze_changes makefile_diff) = ["makefile"])
    by (by vm_compute).
  split; [done|]. split.
  - intros it_paths it_scopes. apply determine_scope_no_separator.
    rewrite makefile_paths. intros p ->%elem_of_singleton. by vm_compute.
  - rewrite Hcands. cbn [chosen_from]. discriminate.
Qed.

Lemma singleton_scope it_paths it_scopes a p :
  affected_paths a = {[ p ]} →
  determine_scope it_paths it_scopes a = Some (
    match scope_of_path p with
    | [] => ""
    | only :: _ => only
    end).
Proof.
  intros Hp. unfold determine_scope. rewrite Hp.
  rewrite bool_decide_eq_false_2 by apply (non_empty_singleton_L (C := gset string)).
  pose proof (iter_perm it_paths {[ p ]}) as Hperm.
  rewrite elements_singleton in Hperm. apply Permutation_singleton_r in Hperm as ->.
  unfold collect_scopes. cbn [flat_map]. rewrite app_nil_r.
  unfold scope_of_path. repeat case_match; done.
Qed.

(** C3, amended. The candidates are the lowercased first parts of the
    affected paths that have more than one part, the reserved names left
    out; the scope is empty when there is no candidate, the candidate when
    there is one, and a most frequent one when there are several. A diff
    that touches only frontend/app.js has scope "frontend" and one that
    touches only src/app.js has the empty scope. *)
Theorem scope_follows_candidates :
  (∀ it_paths it_scopes a,
     ∃ r, determine_scope it_paths it_scopes a = Some r
          ∧ chosen_from (scope_candidates a) r)
  ∧ (∀ it_paths it_scopes,
       determine_scope it_paths it_scopes (analyze_changes frontend_diff)
       = Some "frontend")
  ∧ (∀ it_paths it_scopes,
       determine_scope it_paths it_scopes (analyze_changes src_diff) = Some "").
Proof.
  split; [apply determine_scope_spec|]. split; intros it_paths it_scopes.
  - by rewrite (singleton_scope _ _ _ "frontend/app.js") by (by vm_compute).
  - by rewrite (singleton_scope _ _ _ "src/app.js") by (by vm_compute).
Qed.

(** C10. When no affected path contains a directory separator, the scope
    of the classification is empty: a file at the top of the tree offers
    no candidate, reserved name or not. *)
Theorem top_level_paths_have_empty_scope it_paths it_scopes (a : Analysis) :
  (∀ p, p ∈ affected_paths a → PyStr.contains "/" p = false) →
  scope <$> classify it_paths it_scopes a = Some "".
Proof.
  intros Hall. unfold classify.
  by rewrite (determine_scope_no_separator it_paths it_scopes a Hall).
Qed.

Lemma top_level_paths_have_empty_scope_witness :
  scope <$> classify sorted_iter sorted_iter (analyze_changes makefile_diff) = Some "".
Proof.
  apply top_level_paths_have_empty_scope.
  rewrite makefile_paths. intros p ->%elem_of_singleton. by vm_compute.
Defined.

(** * The claims about the classification *)

Lemma analyze_line_inert a line : is_inert_line line → analyze_line a line = a.
Proof.
  unfold is_inert_line, header_path, is_status_line, is_added_line,
    is_deleted_line, analyze_line.
  destruct (PyStr.startswith line "diff --git").
  - destruct (HeaderRe.search line) as [[g1 g2]|]; [by intros [? _]|done].
  - intros (_ & [[-> ->]%orb_false_elim ->]%orb_false_elim & -> & ->). done.
Qed.

Lemma fold_inert lines a :
  Forall is_inert_line lines → fold_left analyze_line lines a = a.
Proof.
  induction 1 as [|line lines Hline _ IH]; cbn [fold_left]; [done|].
  by rewrite (analyze_line_inert _ _ Hline).
Qed.

Lemma empty_diff_inert : Forall is_inert_line (diff_lines "").
Proof. repeat constructor. Qed.

(** C5, as stated, fails: a diff made of one file-status line has no file
    header and no changed line, yet a flag is set and the type is [feat]. *)
Lemma status_line_without_header_is_feat :
  header_paths (diff_lines new_file_only_diff) = []
  ∧ Forall (λ line, is_added_line line = false ∧ is_deleted_line line = false)
      (diff_lines new_file_only_diff)
  ∧ has_new_files (analyze_changes new_file_only_diff) = true
  ∧ determine_commit_type (analyze_changes new_file_only_diff) = "feat".
Proof. split; [done|]. split; [by repeat constructor|]. split; by vm_compute. Qed.

(** C5, amended. The analysis followed by the classification yields a
    result on every string. On the empty string, and on every diff with no
    file header, no file-status line and no changed line, the analysis is
    the initial one (zero counters, empty sets, false flags) and the
    classification has type [fix] and the empty scope. *)
Theorem classification_total_and_default :
  (∀ it_paths it_scopes diff,
     ∃ c, classify it_paths it_scopes (analyze_changes diff) = Some c)
  ∧ (∀ it_paths it_scopes diff,
       diff = "" ∨ Forall is_inert_line (diff_lines diff) →
       analyze_changes diff = initial
       ∧ classify it_paths it_scopes (analyze_changes diff)
         = Some (mkClassification "fix" "" "fix: fix issue")).
Proof.
  split.
  - intros it_paths it_scopes diff. unfold classify.
    destruct (determine_scope_spec it_paths it_scopes (analyze_changes diff))
      as (r & -> & _).
    by eexists.
  - intros it_paths it_scopes diff Hdiff.
    assert (Hinert : Forall is_inert_line (diff_lines diff)).
    { destruct Hdiff as [->|Hinert]; [apply empty_diff_inert|done]. }
    assert (Hinit : analyze_changes diff = initial)
      by (unfold analyze_changes; by apply fold_inert).
    rewrite Hinit. split; [done|].
    unfold classify. rewrite determine_scope_no_separator; [done|].
    intros p Hp. by apply elem_of_empty in Hp.
Qed.

Lemma rule_off (b : bool) (P : Prop) : (b = true → P) → ¬ P → b = false.
Proof. destruct b; [|done]. intros HP HnP. exfalso. by apply HnP, HP. Qed.

Section Cascade.

Variable a : Analysis.

(** What each of the first five tests of the cascade says when it holds. *)
Lemma test_rule_on :
  (0 <? test_files a) && (test_files a =? size (affected_paths a)) = true →
  0 < test_files a ∧ test_files a = size (affected_paths a).
Proof. by intros [?%Nat.ltb_lt ?%Nat.eqb_eq]%andb_true_iff. Qed.

Lemma docs_rule_on :
  (0 <? doc_files a) && (doc_files a =? size (affected_paths a)) = true →
  0 < doc_files a ∧ doc_files a = size (affected_paths a).
Proof. by intros [?%Nat.ltb_lt ?%Nat.eqb_eq]%andb_true_iff. Qed.

Lemma config_rule_on :
  (0 <? config_files a)
  && bool_decide (set_Exists (λ ext, ext ∈ chore_extensions) (modified_extensions a))
  = true →
  0 < config_files a ∧ ∃ ext, ext ∈ modified_extensions a ∧ ext ∈ chore_extensions.
Proof. by intros [?%Nat.ltb_lt ?%bool_decide_eq_true]%andb_true_iff. Qed.

Lemma new_rule_on :
  has_new_files a && negb (has_modified_files a) && negb (has_deleted_files a) = true →
  has_new_files a = true ∧ has_modified_files a = false ∧ has_deleted_files a = false.
Proof. by intros [[? ?%negb_true_iff]%andb_true_iff ?%negb_true_iff]%andb_true_iff. Qed.

Lemma deleted_rule_on :
  has_deleted_files a && negb (has_new_files a) && negb (has_modified_files a) = true →
  has_deleted_files a = true ∧ has_new_files a = false ∧ has_modified_files a = false.
Proof. by intros [[? ?%negb_true_iff]%andb_true_iff ?%negb_true_iff]%andb_true_iff. Qed.

End Cascade.

(** C6. When none of the first five rules of the cascade applies, the type
    is [feat] if the added lines are more than twice the deleted ones,
    [refactor] if the deleted lines are more than twice the added ones,
    and [fix] otherwise. *)
Theorem line_counts_decide_type (a : Analysis) :
  ¬ (0 < test_files a ∧ test_files a = size (affected_paths a)) →
  ¬ (0 < doc_files a ∧ doc_files a = size (affected_paths a)) →
  ¬ (0 < config_files a
     ∧ ∃ ext, ext ∈ modified_extensions a ∧ ext ∈ chore_extensions) →
  ¬ (has_new_files a = true ∧ has_modified_files a = false
     ∧ has_deleted_files a = false) →
  ¬ (has_deleted_files a = true ∧ has_new_files a = false
     ∧ has_modified_files a = false) →
  (2 * lines_deleted a < lines_added a → determine_commit_type a = "feat")
  ∧ (2 * lines_added a < lines_deleted a → determine_commit_type a = "refactor")
  ∧ (¬ 2 * lines_deleted a < lines_added a →
     ¬ 2 * lines_added a < lines_deleted a →
     determine_commit_type a = "fix").
Proof.
  intros H1 H2 H3 H4 H5. unfold determine_commit_type.
  rewrite (rule_off _ _ (test_rule_on a) H1), (rule_off _ _ (docs_rule_on a) H2),
    (rule_off _ _ (config_rule_on a) H3), (rule_off _ _ (new_rule_on a) H4),
    (rule_off _ _ (deleted_rule_on a) H5).
  destruct (Nat.ltb_spec (lines_deleted a * 2) (lines_added a));
    destruct (Nat.ltb_spec (lines_added a * 2) (lines_deleted a));
    repeat split; intros; first [done | lia].
Qed.

Lemma line_counts_decide_type_witness :
  determine_commit_type growth = "feat"
  ∧ determine_commit_type shrinkage = "refactor".
Proof.
  split.
  - refine (proj1 (line_counts_decide_type growth _ _ _ _ _) _);
      try (intros [H _]; cbn in H; first [lia | discriminate]).
    cbn. lia.
  - refine (proj1 (proj2 (line_counts_decide_type shrinkage _ _ _ _ _)) _);
      try (intros [H _]; cbn in H; first [lia | discriminate]).
    cbn. lia.
Defined.

(** C9. The type of a classification is one of [test], [docs], [chore],
    [feat], [refactor], [fix], never [style]; so the subject is built from
    one of the seven texts of those types, and neither "update code style"
    nor the fallback "update code" is ever used. *)
Theorem inferred_type_is_closed it_paths it_scopes (a : Analysis) :
  ∃ c, classify it_paths it_scopes a = Some c
       ∧ commit_type c = determine_commit_type a
       ∧ commit_type c ∈ inferred_types
       ∧ commit_type c ≠ "style"
       ∧ description (commit_type c) a ∈ inferred_descriptions
       ∧ description (commit_type c) a ≠ "update code style"
       ∧ description (commit_type c) a ≠ "update code"
       ∧ subject c =
           (if String.eqb (scope c) "" then commit_type c
            else commit_type c +:+ "(" +:+ scope c +:+ ")")
           +:+ ": " +:+ description (commit_type c) a.
Proof.
  unfold classify.
  destruct (determine_scope_spec it_paths it_scopes a) as (r & -> & _).
  eexists. split; [done|]. cbn [commit_type scope subject].
  split; [done|].
  assert (Htype : determine_commit_type a ∈ inferred_types).
  { unfold determine_commit_type, inferred_types.
    repeat case_match; repeat (first [by left | right]). }
  assert (Htexts : ∀ t, t ∈ inferred_types →
            t ≠ "style"
            ∧ description t a ∈ inferred_descriptions
            ∧ description t a ≠ "update code style"
            ∧ description t a ≠ "update code").
  { intros t Ht. unfold inferred_types, inferred_descriptions in *.
    repeat (apply elem_of_cons in Ht as [->|Ht]); [..|by apply elem_of_nil in Ht];
      unfold description; cbn; destruct (has_new_files a);
      (split; [done|]); (split; [repeat (first [by left | right])|done]). }
  destruct (Htexts _ Htype) as (? & ? & ? & ?). done.
Qed.

(** * The claims about extensions and the end-to-end scenario *)

Section Extension.

Implicit Types (a : Analysis) (s : string) (c : ascii).

(** [Path.suffix] on a name with a stem, a dot and a dot-free rest. *)
Lemma suffix_of_name p stem ext :
  PurePath.name p = stem +:+ "." +:+ ext →
  stem ≠ "" → ext ≠ "" → PyStr.contains "." ext = false →
  PurePath.suffix p = "." +:+ ext.
Proof.
  intros Hname Hstem Hext Hdot. unfold PurePath.suffix. rewrite Hname.
  change ("." +:+ ext) with (String "." ext).
  rewrite (rfind_last "." stem ext Hdot), length_app, Nat2Z.id, drop_app.
  assert (0 < String.length stem) by (destruct stem; [done|cbn; lia]).
  assert (0 < String.length ext) by (destruct ext; [done|cbn; lia]).
  cbn [String.length].
  destruct (Z.ltb_spec 0 (Z.of_nat (String.length stem))); [|lia].
  destruct (Z.ltb_spec (Z.of_nat (String.length stem))
              (Z.of_nat (String.length stem + S (String.length ext)) - 1)); [done|lia].
Qed.

Lemma record_file_extension p a :
  PyStr.lower (PurePath.suffix p) ≠ "" →
  PyStr.lower (PurePath.suffix p) ∈ modified_extensions (record_file p a).
Proof.
  intros Hext%String.eqb_neq. unfold record_file. cbn. rewrite Hext.
  apply elem_of_union_l, elem_of_singleton. done.
Qed.

Lemma analyze_line_extensions_mono a line x :
  x ∈ modified_extensions a → x ∈ modified_extensions (analyze_line a line).
Proof.
  intros Hx. destruct (header_path line) as [p|] eqn:Hp.
  - rewrite (analyze_line_header _ _ _ Hp). unfold record_file. cbn.
    case_match; [done|]. by apply elem_of_union_r.
  - by destruct (analyze_line_no_header a line Hp) as (_ & -> & _).
Qed.

Lemma fold_extensions_mono lines a x :
  x ∈ modified_extensions a →
  x ∈ modified_extensions (fold_left analyze_line lines a).
Proof.
  revert a. induction lines as [|line lines IH]; intros a Hx; cbn [fold_left]; [done|].
  by apply IH, analyze_line_extensions_mono.
Qed.

Lemma fold_extension_recorded lines a line p :
  line ∈ lines → header_path line = Some p →
  PyStr.lower (PurePath.suffix p) ≠ "" →
  PyStr.lower (PurePath.suffix p) ∈ modified_extensions (fold_left analyze_line lines a).
Proof.
  intros Hin Hp Hext. revert a.
  induction lines as [|line' lines IH]; intros a; [by apply elem_of_nil in Hin|].
  cbn [fold_left]. apply elem_of_cons in Hin as [<-|Hin].
  - apply fold_extensions_mono. rewrite (analyze_line_header _ _ _ Hp).
    by apply record_file_extension.
  - by apply IH.
Qed.

Lemma analyze_line_new_files_mono a line :
  has_new_files a = true → has_new_files (analyze_line a line) = true.
Proof. intros Ha. unfold analyze_line. repeat case_match; done. Qed.

Lemma new_file_mode_is_no_header line :
  PyStr.startswith line "new file mode" = true →
  PyStr.startswith line "diff --git" = false.
Proof.
  destruct line as [|c s]; [done|]. unfold PyStr.startswith. cbn [String.prefix].
  destruct (ascii_dec "n" c) as [<-|]; [|done]. done.
Qed.

Lemma analyze_line_new_file a line :
  PyStr.startswith line "new file mode" = true →
  has_new_files (analyze_line a line) = true.
Proof.
  intros Hline. unfold analyze_line.
  by rewrite (new_file_mode_is_no_header _ Hline), Hline.
Qed.

Lemma fold_new_files_mono lines a :
  has_new_files a = true → has_new_files (fold_left analyze_line lines a) = true.
Proof.
  revert a. induction lines as [|line lines IH]; intros a Ha; cbn [fold_left]; [done|].
  by apply IH, analyze_line_new_files_mono.
Qed.

Lemma fold_new_files lines a :
  Exists (λ line, PyStr.startswith line "new file mode" = true) lines →
  has_new_files (fold_left analyze_line lines a) = true.
Proof.
  intros Hex. revert a.
  induction Hex as [line lines Hline|line lines _ IH]; intros a; cbn [fold_left].
  - by apply fold_new_files_mono, analyze_line_new_file.
  - apply IH.
Qed.

End Extension.

(** C7, as stated, fails: for a last component that begins with its only
    dot the text from the last dot on is the whole name, not empty, and
    nothing is recorded. *)
Lemma dotfile_extension_not_recorded :
  header_path env_diff = Some ".env"
  ∧ claimed_extension ".env" = ".env"
  ∧ modified_extensions (analyze_changes env_diff) = ∅.
Proof. repeat split; by vm_compute. Qed.

(** C7, amended. For every line matching the file-header pattern, the
    lowercased extension of the new path, the text of the last path
    component from its last dot to the end, is in [modified_extensions]
    whenever that dot is neither the first nor the last character of the
    component. *)
Theorem header_extension_recorded (diff line new_path stem ext : string) :
  line ∈ diff_lines diff →
  header_path line = Some new_path →
  PurePath.name new_path = stem +:+ "." +:+ ext →
  stem ≠ "" → ext ≠ "" → PyStr.contains "." ext = false →
  PyStr.lower ("." +:+ ext) ∈ modified_extensions (analyze_changes diff).
Proof.
  intros Hline Hpath Hname Hstem Hext Hdot.
  rewrite <- (suffix_of_name new_path stem ext Hname Hstem Hext Hdot).
  unfold analyze_changes. apply (fold_extension_recorded _ _ line); [done..|].
  rewrite (suffix_of_name new_path stem ext Hname Hstem Hext Hdot). done.
Qed.

Lemma header_extension_recorded_witness :
  ".md" ∈ modified_extensions (analyze_changes two_files_diff).
Proof.
  apply (header_extension_recorded two_files_diff
           "diff --git a/README.md b/README.md" "README.md" "README" "md").
  - apply (bool_decide_unpack _). by vm_compute.
  - by vm_compute.
  - by vm_compute.
  - done.
  - done.
  - by vm_compute.
Defined.

(** C8. For a diff with one file header, naming docs/guide.md, and a
    new-file line (whatever its added lines, a hundred of them included),
    the analysis has docs/guide.md as its only affected path, one document
    and the new-file flag set, and the classification has type [docs], the
    empty scope and the subject "docs: update documentation". *)
Theorem new_doc_file_is_docs it_paths it_scopes (diff : string) :
  header_paths (diff_lines diff) = ["docs/guide.md"] →
  Exists (λ line, PyStr.startswith line "new file mode" = true) (diff_lines diff) →
  affected_paths (analyze_changes diff) = {[ "docs/guide.md" ]}
  ∧ doc_files (analyze_changes diff) = 1
  ∧ has_new_files (analyze_changes diff) = true
  ∧ classify it_paths it_scopes (analyze_changes diff)
    = Some (mkClassification "docs" "" "docs: update documentation").
Proof.
  intros Hheaders Hnew.
  assert (Hpaths : affected_paths (analyze_changes diff) = {[ "docs/guide.md" ]}).
  { rewrite analyze_affected_paths, Hheaders. cbn. apply union_empty_r_L. }
  destruct (analyze_counters diff) as (Htest & _ & Hdoc).
  rewrite Hheaders in Htest, Hdoc.
  change (test_files (analyze_changes diff) = 0) in Htest.
  change (doc_files (analyze_changes diff) = 1) in Hdoc.
  split; [done|]. split; [done|]. split.
  { unfold analyze_changes. by apply fold_new_files. }
  unfold classify.
  rewrite (singleton_scope _ _ _ "docs/guide.md" Hpaths).
  assert (Htype : determine_commit_type (analyze_changes diff) = "docs").
  { unfold determine_commit_type.
    by rewrite Htest, Hdoc, Hpaths, (size_singleton (C := gset string)). }
  by rewrite Htype.
Qed.

Lemma new_doc_file_is_docs_witness :
  lines_added (analyze_changes guide_diff) = 100
  ∧ affected_paths (analyze_changes guide_diff) = {[ "docs/guide.md" ]}
  ∧ doc_files (analyze_changes guide_diff) = 1
  ∧ has_new_files (analyze_changes guide_diff) = true
  ∧ classify sorted_iter sorted_iter (analyze_changes guide_diff)
    = Some (mkClassification "docs" "" "docs: update documentation").
Proof.
  split; [by vm_compute|].
  apply (new_doc_file_is_docs sorted_iter sorted_iter guide_diff).
  - by vm_compute.
  - apply Exists_cons_tl, Exists_cons_hd. by vm_compute.
Defined.

(** * Further properties of [analyze_changes] *)

(** Two prefixes that differ within their first two characters cannot
    both start a line. *)
Ltac prefix_clash line :=
  destruct line as [|? [|? ?]];
  unfold PyStr.startswith in *; cbn [String.prefix] in *;
  repeat match goal with
         | H : context [ascii_dec ?a ?b] |- _ =>
             is_var b; destruct (ascii_dec a b) as [<-|]
         | |- context [ascii_dec ?a ?b] =>
             is_var b; destruct (ascii_dec a b) as [<-|]
         end;
  cbn in *; try done.

Section Summary.

Implicit Types (a : Analysis) (line : string) (lines : list string).

Lemma header_line_exclusive line :
  PyStr.startswith line "diff --git" = true →
  PyStr.startswith line "new file mode" = false
  ∧ PyStr.startswith line "deleted file mode" = false
  ∧ PyStr.startswith line "rename" = false
  ∧ PyStr.startswith line "+" = false
  ∧ PyStr.startswith line "-" = false.
Proof. intros H. repeat split; prefix_clash line. Qed.

Lemma new_line_exclusive line :
  PyStr.startswith line "new file mode" = true →
  PyStr.startswith line "deleted file mode" = false
  ∧ PyStr.startswith line "rename" = false
  ∧ PyStr.startswith line "+" = false
  ∧ PyStr.startswith line "-" = false.
Proof. intros H. repeat split; prefix_clash line. Qed.

Lemma deleted_line_exclusive line :
  PyStr.startswith line "deleted file mode" = true →
  PyStr.startswith line "rename" = false
  ∧ PyStr.startswith line "+" = false
  ∧ PyStr.startswith line "-" = false.
Proof. intros H. repeat split; prefix_clash line. Qed.

Lemma rename_line_exclusive line :
  PyStr.startswith line "rename" = true →
  PyStr.startswith line "+" = false ∧ PyStr.startswith line "-" = false.
Proof. intros H. repeat split; prefix_clash line. Qed.

Lemma plus_line_exclusive line :
  PyStr.startswith line "+" = true → PyStr.startswith line "-" = false.
Proof. intros H. prefix_clash line. Qed.

(** What one line does to the fields that are not per-file. *)
Lemma analyze_line_tallies a line :
  lines_added (analyze_line a line)
    = lines_added a + (if is_added_line line then 1 else 0)
  ∧ lines_deleted (analyze_line a line)
    = lines_deleted a + (if is_deleted_line line then 1 else 0)
  ∧ has_new_files (analyze_line a line)
    = has_new_files a || PyStr.startswith line "new file mode"
  ∧ has_deleted_files (analyze_line a line)
    = has_deleted_files a || PyStr.startswith line "deleted file mode"
  ∧ has_renamed_files (analyze_line a line)
    = has_renamed_files a || PyStr.startswith line "rename".
Proof.
  unfold analyze_line, is_added_line, is_deleted_line.
  destruct (PyStr.startswith line "diff --git") eqn:Hheader.
  { destruct (header_line_exclusive line Hheader) as (-> & -> & -> & -> & ->).
    rewrite !orb_false_r. cbn [andb].
    destruct (HeaderRe.search line) as [[g1 g2]|]; cbn; repeat split; lia. }
  destruct (PyStr.startswith line "new file mode") eqn:Hnew.
  { destruct (new_line_exclusive line Hnew) as (-> & -> & -> & ->).
    rewrite !orb_false_r, orb_true_r. cbn. repeat split; lia. }
  destruct (PyStr.startswith line "deleted file mode") eqn:Hdeleted.
  { destruct (deleted_line_exclusive line Hdeleted) as (-> & -> & ->).
    rewrite !orb_false_r, orb_true_r. cbn. repeat split; lia. }
  destruct (PyStr.startswith line "rename") eqn:Hrename.
  { destruct (rename_line_exclusive line Hrename) as (-> & ->).
    rewrite !orb_false_r, orb_true_r. cbn. repeat split; lia. }
  rewrite !orb_false_r.
  destruct (PyStr.startswith line "+") eqn:Hplus.
  { rewrite (plus_line_exclusive line Hplus). cbn [andb].
    destruct (PyStr.startswith line "+++"); cbn.
    - destruct (PyStr.startswith line "---"); cbn; repeat split; lia.
    - repeat split; lia. }
  cbn [andb].
  destruct (PyStr.startswith line "-" && negb (PyStr.startswith line "---"));
    cbn; repeat split; lia.
Qed.

Lemma count_lines_cons test line lines :
  count_lines test (line :: lines)
  = (if test line then 1 else 0) + count_lines test lines.
Proof.
  unfold count_lines. rewrite filter_cons.
  destruct (test line); by case_decide.
Qed.

Lemma fold_tallies lines a :
  lines_added (fold_left analyze_line lines a)
    = lines_added a + count_lines is_added_line lines
  ∧ lines_deleted (fold_left analyze_line lines a)
    = lines_deleted a + count_lines is_deleted_line lines
  ∧ has_new_files (fold_left analyze_line lines a)
    = has_new_files a
      || existsb (λ line, PyStr.startswith line "new file mode") lines
  ∧ has_deleted_files (fold_left analyze_line lines a)
    = has_deleted_files a
      || existsb (λ line, PyStr.startswith line "deleted file mode") lines
  ∧ has_renamed_files (fold_left analyze_line lines a)
    = has_renamed_files a
      || existsb (λ line, PyStr.startswith line "rename") lines.
Proof.
  revert a. induction lines as [|line lines IH]; intros a; cbn [fold_left existsb].
  - rewrite !orb_false_r. unfold count_lines. cbn. repeat split; lia.
  - destruct (IH (analyze_line a line)) as (-> & -> & -> & -> & ->).
    destruct (analyze_line_tallies a line) as (-> & -> & -> & -> & ->).
    rewrite !count_lines_cons, !orb_assoc. repeat split; lia.
Qed.

Lemma fold_modified_extensions lines a :
  modified_extensions (fold_left analyze_line lines a)
  = list_to_set (header_extensions lines) ∪ modified_extensions a.
Proof.
  revert a. induction lines as [|line lines IH]; intros a; cbn [fold_left].
  - cbn. by rewrite union_empty_l_L.
  - rewrite IH. unfold header_extensions. rewrite header_paths_cons.
    destruct (header_path line) as [p|] eqn:Hp.
    + rewrite (analyze_line_header _ _ _ Hp), fmap_cons, filter_cons.
      fold (extension_of p). unfold record_file. cbn [modified_extensions].
      fold (extension_of p).
      destruct (String.eqb_spec (extension_of p) "") as [Hext|Hext].
      * by rewrite decide_False by (by intros []).
      * rewrite decide_True by done. rewrite list_to_set_cons.
        by rewrite (comm_L (∪) {[extension_of p]} (list_to_set _)), (assoc_L (∪)).
    + by destruct (analyze_line_no_header a line Hp) as (_ & -> & _).
Qed.

End Summary.

(** X1. The two line counters count exactly the lines that start with
    [+] but not [+++], and with [-] but not [---]: no earlier branch of
    the scan takes such a line, and the [+++]/[---] file markers never
    count. *)
Theorem changed_lines_counted (diff : string) :
  lines_added (analyze_changes diff) = count_lines is_added_line (diff_lines diff)
  ∧ lines_deleted (analyze_changes diff)
    = count_lines is_deleted_line (diff_lines diff).
Proof.
  unfold analyze_changes.
  destruct (fold_tallies (diff_lines diff) initial) as (-> & -> & _). done.
Qed.

(** X2. Each status flag is set exactly when some line of the diff starts
    with its marker: [new file mode], [deleted file mode], [rename]. *)
Theorem status_flags_follow_markers (diff : string) :
  has_new_files (analyze_changes diff)
    = existsb (λ line, PyStr.startswith line "new file mode") (diff_lines diff)
  ∧ has_deleted_files (analyze_changes diff)
    = existsb (λ line, PyStr.startswith line "deleted file mode") (diff_lines diff)
  ∧ has_renamed_files (analyze_changes diff)
    = existsb (λ line, PyStr.startswith line "rename") (diff_lines diff).
Proof.
  unfold analyze_changes.
  destruct (fold_tallies (diff_lines diff) initial) as (_ & _ & -> & -> & ->). done.
Qed.

Section Shapes.

Implicit Types (s : string) (c : ascii).

Lemma append_nil_l s : "" +:+ s = s.
Proof. reflexivity. Qed.

Lemma prefix_app p s : String.prefix p (p +:+ s) = true.
Proof.
  induction p as [|c p IH]; [by destruct s|].
  rewrite append_cons. cbn [String.prefix]. by destruct (ascii_dec c c).
Qed.

Lemma contains_app sub x y : PyStr.contains sub (x +:+ sub +:+ y) = true.
Proof.
  induction x as [|c x IH].
  - rewrite append_nil_l. destruct (sub +:+ y) eqn:E; cbn [PyStr.contains];
      rewrite <- E, prefix_app; done.
  - rewrite append_cons. cbn [PyStr.contains]. rewrite IH. apply orb_true_r.
Qed.

(** Two ways to cut one string: the longer head extends the shorter. *)
Lemma app_split_le s1 x s2 y :
  s1 +:+ x = s2 +:+ y → String.length s1 ≤ String.length s2 →
  ∃ d, s2 = s1 +:+ d ∧ x = d +:+ y.
Proof.
  revert s2. induction s1 as [|c s1 IH]; intros s2 Heq Hlen.
  - exists s2. by rewrite !append_nil_l in *.
  - destruct s2 as [|c' s2]; [cbn in Hlen; lia|].
    rewrite !append_cons in Heq. injection Heq as <- Heq.
    destruct (IH s2 Heq) as (d & -> & ->); [cbn in Hlen; lia|].
    by exists d.
Qed.

Lemma rfind_negative c s :
  (PyStr.rfind c s < 0)%Z → PyStr.contains (String c "") s = false.
Proof.
  induction s as [|a s IH]; [done|]. cbn [PyStr.rfind].
  destruct (Z.leb_spec 0 (PyStr.rfind c s)); [lia|].
  destruct (Ascii.eqb a c) eqn:Hc; [lia|]. intros _.
  rewrite contains_cons, IH by done. by rewrite Ascii.eqb_sym, Hc.
Qed.

(** Where [rfind] points there is the character, and none after it. *)
Lemma rfind_split c s :
  (0 ≤ PyStr.rfind c s)%Z →
  ∃ s1 s2, s = s1 +:+ String c s2
           ∧ Z.of_nat (String.length s1) = PyStr.rfind c s
           ∧ PyStr.contains (String c "") s2 = false.
Proof.
  induction s as [|a s IH]; [done|]. cbn [PyStr.rfind].
  destruct (Z.leb_spec 0 (PyStr.rfind c s)) as [Hr|Hr].
  - intros _. destruct (IH Hr) as (s1 & s2 & -> & Hlen & Hfree).
    exists (String a s1), s2. rewrite append_cons. cbn [String.length].
    repeat split; [lia|done].
  - destruct (Ascii.eqb_spec a c) as [->|]; [|lia]. intros _.
    exists "", s. repeat split. by apply rfind_negative.
Qed.

(** A non-empty suffix is a dot followed by a non-empty, dot-free rest. *)
Lemma suffix_shape p :
  PurePath.suffix p = ""
  ∨ ∃ e, PurePath.suffix p = String "." e ∧ e ≠ "" ∧ PyStr.contains "." e = false.
Proof.
  unfold PurePath.suffix.
  destruct (Z.ltb_spec 0 (PyStr.rfind "." (PurePath.name p))) as [Hpos|]; [|by left].
  destruct (Z.ltb_spec (PyStr.rfind "." (PurePath.name p))
              (Z.of_nat (String.length (PurePath.name p)) - 1)) as [Hlast|]; [|by left].
  cbn [andb]. right.
  destruct (rfind_split "." (PurePath.name p)) as (s1 & s2 & Hname & Hlen & Hfree); [lia|].
  exists s2. rewrite <- Hlen, Nat2Z.id. rewrite Hname in *. rewrite drop_app.
  split; [done|]. split; [|done].
  intros ->. rewrite length_app in Hlast. cbn [String.length] in Hlast. lia.
Qed.

Lemma lower_char_idem c : PyStr.lower_char (PyStr.lower_char c) = PyStr.lower_char c.
Proof. by destruct c as [[] [] [] [] [] [] [] []]. Qed.

Lemma lower_char_dot c : Ascii.eqb "." (PyStr.lower_char c) = Ascii.eqb "." c.
Proof. by destruct c as [[] [] [] [] [] [] [] []]. Qed.

Lemma lower_idem s : PyStr.lower (PyStr.lower s) = PyStr.lower s.
Proof.
  induction s as [|c s IH]; [done|]. cbn [PyStr.lower]. by rewrite lower_char_idem, IH.
Qed.

Lemma lower_dot_free s :
  PyStr.contains "." s = false → PyStr.contains "." (PyStr.lower s) = false.
Proof.
  induction s as [|c s IH]; [done|]. cbn [PyStr.lower].
  rewrite !contains_cons, lower_char_dot. intros [-> Hs]%orb_false_elim.
  by rewrite IH.
Qed.

End Shapes.

Lemma elem_of_affected_paths diff p :
  p ∈ affected_paths (analyze_changes diff)
  ↔ ∃ line, line ∈ diff_lines diff ∧ header_path line = Some p.
Proof.
  rewrite analyze_affected_paths, elem_of_list_to_set.
  unfold header_paths. rewrite list_elem_of_omap. naive_solver.
Qed.

Lemma elem_of_modified_extensions diff ext :
  ext ∈ modified_extensions (analyze_changes diff)
  ↔ ext ≠ "" ∧ ∃ line p, line ∈ diff_lines diff
                         ∧ header_path line = Some p
                         ∧ PyStr.lower (PurePath.suffix p) = ext.
Proof.
  unfold analyze_changes. rewrite fold_modified_extensions.
  change (modified_extensions initial) with (∅ : gset string).
  rewrite union_empty_r_L, elem_of_list_to_set.
  unfold header_extensions, header_paths, extension_of.
  rewrite list_elem_of_filter, list_elem_of_fmap.
  setoid_rewrite list_elem_of_omap. split.
  - intros (Hne & p & -> & line & Hline & Hp). split; [done|]. by exists line, p.
  - intros (Hne & line & p & Hline & Hp & <-). split; [done|].
    exists p. split; [done|]. by exists line.
Qed.

(** X3. The affected paths are exactly the new paths of the file headers
    of the diff, and the modified extensions are exactly the non-empty
    lowercased suffixes of those paths: no other line adds to either set. *)
Theorem sets_come_from_headers (diff : string) :
  (∀ p, p ∈ affected_paths (analyze_changes diff)
        ↔ ∃ line, line ∈ diff_lines diff ∧ header_path line = Some p)
  ∧ (∀ ext, ext ∈ modified_extensions (analyze_changes diff)
        ↔ ext ≠ "" ∧ ∃ line p, line ∈ diff_lines diff
                               ∧ header_path line = Some p
                               ∧ PyStr.lower (PurePath.suffix p) = ext).
Proof.
  split; [apply elem_of_affected_paths | apply elem_of_modified_extensions].
Qed.

(** X4. Every recorded extension is a dot followed by a non-empty rest
    without a dot, and is in lower case. *)
Theorem extensions_are_dotted_lowercase (diff ext : string) :
  ext ∈ modified_extensions (analyze_changes diff) →
  ∃ e, ext = String "." e ∧ e ≠ "" ∧ PyStr.contains "." e = false
       ∧ PyStr.lower ext = ext.
Proof.
  intros (Hne & line & p & _ & _ & <-)%elem_of_modified_extensions.
  destruct (suffix_shape p) as [Hempty|(e & He & Hne' & Hfree)].
  { by rewrite Hempty in Hne. }
  rewrite He. exists (PyStr.lower e). cbn [PyStr.lower].
  change (PyStr.lower_char ".") with "."%char.
  repeat split.
  - by destruct e.
  - by apply lower_dot_free.
  - by rewrite lower_idem.
Qed.

Lemma extensions_are_dotted_lowercase_witness :
  ∃ e, ".md" = String "." e ∧ e ≠ "" ∧ PyStr.contains "." e = false
       ∧ PyStr.lower ".md" = ".md".
Proof.
  apply (extensions_are_dotted_lowercase two_files_diff ".md").
  apply (bool_decide_unpack _). by vm_compute.
Defined.

(** X5. Each of the three counters is the number of file header lines
    whose new path falls into its bucket, a line counting once for every
    time it occurs; together they never exceed the number of header lines. *)
Theorem counters_count_header_lines (diff : string) :
  test_files (analyze_changes diff)
    = bucket_count TestFile (header_paths (diff_lines diff))
  ∧ config_files (analyze_changes diff)
    = bucket_count ConfigFile (header_paths (diff_lines diff))
  ∧ doc_files (analyze_changes diff)
    = bucket_count DocFile (header_paths (diff_lines diff))
  ∧ test_files (analyze_changes diff) + config_files (analyze_changes diff)
      + doc_files (analyze_changes diff)
    ≤ length (header_paths (diff_lines diff)).
Proof.
  destruct (analyze_counters diff) as (-> & -> & ->).
  repeat split. apply bucket_counts_le.
Qed.

Section Joining.

Implicit Types (a : Analysis) (lines : list string).

Lemma split_pieces_app sep s1 s2 :
  PyStr.split_pieces sep (s1 +:+ String sep s2)
  = ((PyStr.split_pieces sep s1).1,
     ((PyStr.split_pieces sep s1).2 ++ PyStr.split sep s2)%list).
Proof.
  induction s1 as [|c s1 IH].
  - rewrite append_nil_l. cbn [PyStr.split_pieces]. unfold PyStr.split.
    destruct (PyStr.split_pieces sep s2) as [piece pieces].
    by rewrite Ascii.eqb_refl.
  - rewrite append_cons. cbn [PyStr.split_pieces]. rewrite IH.
    destruct (PyStr.split_pieces sep s1) as [piece pieces].
    cbn [fst snd]. by destruct (Ascii.eqb c sep).
Qed.

(** Splitting at line breaks distributes over joining with a line break. *)
Lemma diff_lines_app d1 d2 :
  diff_lines (d1 +:+ nl +:+ d2) = (diff_lines d1 ++ diff_lines d2)%list.
Proof.
  unfold diff_lines. change (nl +:+ d2) with (String HeaderRe.newline d2).
  unfold PyStr.split at 1 2. rewrite split_pieces_app.
  by destruct (PyStr.split_pieces HeaderRe.newline d1).
Qed.

Lemma Analysis_eq a b :
  has_new_files a = has_new_files b →
  has_deleted_files a = has_deleted_files b →
  has_modified_files a = has_modified_files b →
  has_renamed_files a = has_renamed_files b →
  modified_extensions a = modified_extensions b →
  affected_paths a = affected_paths b →
  lines_added a = lines_added b →
  lines_deleted a = lines_deleted b →
  test_files a = test_files b →
  config_files a = config_files b →
  doc_files a = doc_files b →
  a = b.
Proof. destruct a, b. cbn. by intros -> -> -> -> -> -> -> -> -> -> ->. Qed.

(** Scanning on from an analysis adds what the lines alone would give. *)
Lemma fold_combine lines a :
  fold_left analyze_line lines a
  = combine a (fold_left analyze_line lines initial).
Proof.
  destruct (fold_tallies lines a) as (Hadd & Hdel & Hnew & Hgone & Hren).
  destruct (fold_tallies lines initial) as (Hadd0 & Hdel0 & Hnew0 & Hgone0 & Hren0).
  destruct (fold_counters lines a) as (Htest & Hconf & Hdoc).
  destruct (fold_counters lines initial) as (Htest0 & Hconf0 & Hdoc0).
  apply Analysis_eq; unfold combine; cbn [has_new_files has_deleted_files
    has_modified_files has_renamed_files modified_extensions affected_paths
    lines_added lines_deleted test_files config_files doc_files].
  - by rewrite Hnew, Hnew0.
  - by rewrite Hgone, Hgone0.
  - rewrite !fold_modified_files. by rewrite orb_false_r.
  - by rewrite Hren, Hren0.
  - rewrite (fold_modified_extensions lines a), (fold_modified_extensions lines initial).
    change (modified_extensions initial) with (∅ : gset string).
    by rewrite union_empty_r_L, (comm_L (∪)).
  - rewrite (fold_affected_paths lines a), (fold_affected_paths lines initial).
    change (affected_paths initial) with (∅ : gset string).
    by rewrite union_empty_r_L, (comm_L (∪)).
  - by rewrite Hadd, Hadd0.
  - by rewrite Hdel, Hdel0.
  - by rewrite Htest, Htest0.
  - by rewrite Hconf, Hconf0.
  - by rewrite Hdoc, Hdoc0.
Qed.

End Joining.

(** X6. Analysing two diffs joined by a line break gives the two analyses
    put together: flags by disjunction, path and extension sets by union,
    line and file counters by sum. *)
Theorem analysis_of_joined_diffs (d1 d2 : string) :
  analyze_changes (d1 +:+ nl +:+ d2)
  = combine (analyze_changes d1) (analyze_changes d2).
Proof.
  unfold analyze_changes. by rewrite diff_lines_app, fold_left_app, fold_combine.
Qed.

Section HeaderLine.

Implicit Types (s old new : string).

Lemma newline_free_app s1 s2 :
  newline_free s1 → newline_free s2 → newline_free (s1 +:+ s2).
Proof.
  induction s1 as [|c s1 IH]; [done|]. rewrite append_cons.
  intros [Hc Hs1]%newline_free_cons Hs2. apply newline_free_cons. auto.
Qed.

(** A line that can be split at a [" b/"] after which no other one
    follows is split there. *)
Lemma groups_last_separator old new :
  old ≠ "" → new ≠ "" → newline_free old → newline_free new →
  PyStr.contains " b/" new = false →
  ∃ g1, HeaderRe.groups (old +:+ " b/" +:+ new) = Some (g1, new).
Proof.
  intros Hold Hnew Hfree_old Hfree_new Hlast.
  assert (Hfree : newline_free (old +:+ " b/" +:+ new)).
  { apply newline_free_app; [done|]. by apply (newline_free_app " b/"). }
  destruct (groups_greedy (old +:+ " b/" +:+ new) old new Hfree)
    as (g1 & g2 & Hgroups & Hlen); [done|].
  destruct (groups_sound _ _ _ Hfree Hgroups) as (_ & _ & Heq).
  destruct (app_split_le _ _ _ _ Heq Hlen) as (d & -> & Hd).
  exists (old +:+ d). rewrite Hgroups. do 2 f_equal.
  destruct d as [|c1 [|c2 [|c3 d]]];
    rewrite ?append_cons, ?append_nil_l in Hd.
  - by injection Hd.
  - by injection Hd.
  - by injection Hd.
  - injection Hd as <- <- <- Hd. rewrite Hd in Hlast.
    pose proof (contains_app " b/" d g2) as Hin.
    rewrite ?append_cons, ?append_nil_l in Hin. by rewrite Hin in Hlast.
Qed.

End HeaderLine.

(** X7. A header line [diff --git a/<old> b/<new>] yields [<new>] as the
    affected path whenever both paths are non-empty and [<new>] does not
    itself contain [" b/"]; the old path may contain it. *)
Theorem header_recovers_new_path (old new : string) :
  old ≠ "" → new ≠ "" → newline_free old → newline_free new →
  PyStr.contains " b/" new = false →
  header_path ("diff --git a/" +:+ old +:+ " b/" +:+ new) = Some new.
Proof.
  intros Hold Hnew Hfree_old Hfree_new Hlast.
  destruct (groups_last_separator old new) as (g1 & Hgroups); [done..|].
  set (rest := old +:+ " b/" +:+ new) in *.
  assert (Hhead : PyStr.startswith ("diff --git a/" +:+ rest) "diff --git a/" = true)
    by apply prefix_app.
  assert (Hdrop : PyStr.drop 13 ("diff --git a/" +:+ rest) = rest)
    by apply (drop_app "diff --git a/").
  unfold header_path.
  change ("diff --git a/" +:+ rest) with ("diff --git" +:+ " a/" +:+ rest) at 1.
  unfold PyStr.startswith at 1. rewrite prefix_app.
  rewrite (search_at_head _ Hhead) by (by rewrite Hdrop, Hgroups).
  by rewrite Hdrop, Hgroups.
Qed.

Lemma header_recovers_new_path_witness :
  header_path ("diff --git a/" +:+ "my b/notes.txt" +:+ " b/" +:+ "docs/notes.txt")
  = Some "docs/notes.txt".
Proof.
  apply (header_recovers_new_path "my b/notes.txt" "docs/notes.txt");
    first [done | by vm_compute].
Defined.

(** * Further properties of the classification *)

(** X8. What a returned type says about the analysis: [test] and [docs]
    only when that counter is positive and equals the number of paths,
    [chore] only by the configuration rule or the deletion rule, [feat]
    only by the new-file rule or when the added lines are more than twice
    the deleted ones, [refactor] only when the deleted lines are more than
    twice the added ones, [fix] only when neither count is more than twice
    the other. *)
Theorem type_reveals_rule (a : Analysis) :
  (determine_commit_type a = "test" →
     0 < test_files a ∧ test_files a = size (affected_paths a))
  ∧ (determine_commit_type a = "docs" →
       0 < doc_files a ∧ doc_files a = size (affected_paths a))
  ∧ (determine_commit_type a = "chore" →
       (0 < config_files a
        ∧ ∃ ext, ext ∈ modified_extensions a ∧ ext ∈ chore_extensions)
       ∨ (has_deleted_files a = true ∧ has_new_files a = false
          ∧ has_modified_files a = false))
  ∧ (determine_commit_type a = "feat" →
       (has_new_files a = true ∧ has_modified_files a = false
        ∧ has_deleted_files a = false)
       ∨ 2 * lines_deleted a < lines_added a)
  ∧ (determine_commit_type a = "refactor" →
       2 * lines_added a < lines_deleted a
       ∧ ¬ 2 * lines_deleted a < lines_added a)
  ∧ (determine_commit_type a = "fix" →
       lines_added a ≤ 2 * lines_deleted a
       ∧ lines_deleted a ≤ 2 * lines_added a).
Proof.
  unfold determine_commit_type.
  destruct ((0 <? test_files a) && (test_files a =? size (affected_paths a)))
    eqn:Htest.
  { apply test_rule_on in Htest as [? ?]. repeat split; intros; done. }
  destruct ((0 <? doc_files a) && (doc_files a =? size (affected_paths a)))
    eqn:Hdocs.
  { apply docs_rule_on in Hdocs as [? ?]. repeat split; intros; done. }
  destruct ((0 <? config_files a)
            && bool_decide (set_Exists (λ ext, ext ∈ chore_extensions)
                              (modified_extensions a))) eqn:Hconfig.
  { apply config_rule_on in Hconfig. repeat split; intros; try done. by left. }
  destruct (has_new_files a && negb (has_modified_files a)
            && negb (has_deleted_files a)) eqn:Hnew.
  { apply new_rule_on in Hnew. repeat split; intros; try done. by left. }
  destruct (has_deleted_files a && negb (has_new_files a)
            && negb (has_modified_files a)) eqn:Hdeleted.
  { apply deleted_rule_on in Hdeleted. repeat split; intros; try done. by right. }
  destruct (Nat.ltb_spec (lines_deleted a * 2) (lines_added a)).
  { repeat split; intros; try done. right. lia. }
  destruct (Nat.ltb_spec (lines_added a * 2) (lines_deleted a));
    repeat split; intros; try done; lia.
Qed.

Lemma existsb_elem_of (test : string → bool) (lines : list string) :
  existsb test lines = true ↔ ∃ line, line ∈ lines ∧ test line = true.
Proof.
  rewrite existsb_exists. by setoid_rewrite list_elem_of_In.
Qed.

Lemma analyze_flags diff :
  has_modified_files (analyze_changes diff) = false
  ∧ (has_new_files (analyze_changes diff) = true
     ↔ ∃ line, line ∈ diff_lines diff
               ∧ PyStr.startswith line "new file mode" = true)
  ∧ (has_deleted_files (analyze_changes diff) = true
     ↔ ∃ line, line ∈ diff_lines diff
               ∧ PyStr.startswith line "deleted file mode" = true).
Proof.
  unfold analyze_changes.
  destruct (fold_tallies (diff_lines diff) initial) as (_ & _ & -> & -> & _).
  rewrite fold_modified_files. cbn [initial has_new_files has_deleted_files orb].
  by rewrite <- !existsb_elem_of.
Qed.

(** X9. A diff with a new-file line and no deleted-file line is never
    classified [fix] or [refactor]: its type is [test], [docs], [chore] or
    [feat]. *)
Theorem added_files_never_fix (diff : string) :
  (∃ line, line ∈ diff_lines diff ∧ PyStr.startswith line "new file mode" = true) →
  (∀ line, line ∈ diff_lines diff →
           PyStr.startswith line "deleted file mode" = false) →
  determine_commit_type (analyze_changes diff) ∈ ["test"; "docs"; "chore"; "feat"].
Proof.
  intros Hnew Hnone.
  destruct (analyze_flags diff) as (Hmod & Hnew' & Hdel').
  apply Hnew' in Hnew.
  assert (Hdel : has_deleted_files (analyze_changes diff) = false).
  { apply not_true_is_false. intros (line & Hline & Hstart)%Hdel'.
    by rewrite (Hnone line Hline) in Hstart. }
  unfold determine_commit_type. rewrite Hnew, Hmod, Hdel. cbn [andb negb].
  repeat case_match; repeat (first [by left | right]).
Qed.

Lemma added_files_never_fix_witness :
  determine_commit_type (analyze_changes added_file_diff)
  ∈ ["test"; "docs"; "chore"; "feat"].
Proof.
  apply (added_files_never_fix added_file_diff).
  - exists "new file mode 100644". split; [|done].
    apply (bool_decide_unpack _). by vm_compute.
  - intros line Hline. apply (Forall_forall
      (λ line, PyStr.startswith line "deleted file mode" = false)
      (diff_lines added_file_diff)); [|done].
    repeat constructor.
Defined.

(** X10. A diff with a deleted-file line and no new-file line is
    classified [test], [docs] or [chore], whatever its line counts. *)
Theorem removed_files_never_feat (diff : string) :
  (∃ line, line ∈ diff_lines diff
           ∧ PyStr.startswith line "deleted file mode" = true) →
  (∀ line, line ∈ diff_lines diff →
           PyStr.startswith line "new file mode" = false) →
  determine_commit_type (analyze_changes diff) ∈ ["test"; "docs"; "chore"].
Proof.
  intros Hdel Hnone.
  destruct (analyze_flags diff) as (Hmod & Hnew' & Hdel').
  apply Hdel' in Hdel.
  assert (Hnew : has_new_files (analyze_changes diff) = false).
  { apply not_true_is_false. intros (line & Hline & Hstart)%Hnew'.
    by rewrite (Hnone line Hline) in Hstart. }
  unfold determine_commit_type. rewrite Hnew, Hmod, Hdel. cbn [andb negb].
  repeat case_match; repeat (first [by left | right]).
Qed.

Lemma removed_files_never_feat_witness :
  determine_commit_type (analyze_changes removed_file_diff)
  ∈ ["test"; "docs"; "chore"].
Proof.
  apply (removed_files_never_feat removed_file_diff).
  - exists "deleted file mode 100644". split; [|done].
    apply (bool_decide_unpack _). by vm_compute.
  - intros line Hline. apply (Forall_forall
      (λ line, PyStr.startswith line "new file mode" = false)
      (diff_lines removed_file_diff)); [|done].
    repeat constructor.
Defined.

(** * Further properties of [determine_scope] *)

Section ScopeMore.

Implicit Types (a : Analysis) (it : SetIter).

Lemma elem_of_collect_scopes (paths : list string) c :
  c ∈ collect_scopes paths ↔ ∃ p, p ∈ paths ∧ c ∈ scope_of_path p.
Proof.
  unfold collect_scopes. rewrite list_elem_of_In, in_flat_map.
  by setoid_rewrite list_elem_of_In.
Qed.

(** A candidate is the lowercased first part of a path with more than one
    part, and no reserved name. *)
Lemma elem_of_scope_of_path p c :
  c ∈ scope_of_path p →
  (c ∉ reserved_scopes)
  ∧ ∃ first rest, PurePath.parts p = first :: rest ∧ rest ≠ []
                  ∧ c = PyStr.lower first.
Proof.
  unfold scope_of_path.
  destruct (PurePath.parts p) as [|first [|second rest]];
    [by intros ?%elem_of_nil | by intros ?%elem_of_nil |].
  case_bool_decide as Hreserved; [by intros ?%elem_of_nil|].
  intros ->%list_elem_of_singleton. split; [done|]. by eexists _, _.
Qed.

Lemma chosen_from_elem (cands : list string) r :
  chosen_from cands r → r = "" ∨ r ∈ cands.
Proof.
  destruct cands as [|x [|y cands]]; cbn [chosen_from].
  - by left.
  - intros ->. right. by left.
  - intros [? _]. by right.
Qed.

End ScopeMore.

(** X11. The scope is never a reserved name: it is empty or the
    lowercased first part of an affected path that has more than one part,
    and lowercasing it again changes nothing. *)
Theorem scope_is_unreserved_directory it_paths it_scopes (a : Analysis) :
  ∃ r, determine_scope it_paths it_scopes a = Some r
       ∧ (r ∉ reserved_scopes)
       ∧ PyStr.lower r = r
       ∧ (r = ""
          ∨ ∃ p first rest, p ∈ affected_paths a
                            ∧ PurePath.parts p = first :: rest ∧ rest ≠ []
                            ∧ r = PyStr.lower first).
Proof.
  destruct (determine_scope_spec it_paths it_scopes a) as (r & Hr & Hchosen).
  exists r. split; [done|].
  destruct (chosen_from_elem _ _ Hchosen) as [->|Hin].
  { split; [by apply (bool_decide_unpack _)|]. split; [done|by left]. }
  apply elem_of_collect_scopes in Hin as (p & Hp%elem_of_elements & Hc).
  destruct (elem_of_scope_of_path p r Hc) as (Hfree & first & rest & Hparts & Hrest & ->).
  split; [done|]. split; [apply lower_idem|]. right. by exists p, first, rest.
Qed.

(** X13. When one candidate occurs more often than every other, it is
    the scope, whatever the iteration orders. *)
Theorem majority_candidate_is_scope it_paths it_scopes (a : Analysis) (c : string) :
  c ∈ scope_candidates a →
  (∀ c', c' ∈ scope_candidates a → c' ≠ c →
         count (scope_candidates a) c' < count (scope_candidates a) c) →
  determine_scope it_paths it_scopes a = Some c.
Proof.
  intros Hc Hmajor.
  destruct (determine_scope_spec it_paths it_scopes a) as (r & -> & Hchosen).
  f_equal. revert Hc Hmajor Hchosen.
  generalize (scope_candidates a). intros cands Hc Hmajor Hchosen.
  destruct cands as [|x [|y cands]]; cbn [chosen_from] in Hchosen.
  - by apply elem_of_nil in Hc.
  - apply list_elem_of_singleton in Hc. congruence.
  - destruct Hchosen as [Hr Hmax].
    destruct (decide (r = c)) as [|Hne]; [done|].
    specialize (Hmajor r Hr Hne). specialize (Hmax c Hc). lia.
Qed.

Lemma majority_candidate_is_scope_witness :
  determine_scope sorted_iter sorted_iter (analyze_changes three_files_diff)
  = Some "web".
Proof.
  assert (Hcands : scope_candidates (analyze_changes three_files_diff)
                   = ["web"; "web"; "api"]) by (by vm_compute).
  apply majority_candidate_is_scope; rewrite Hcands.
  - by left.
  - intros c' Hc' Hne.
    apply elem_of_cons in Hc' as [->|Hc']; [by destruct Hne|].
    apply elem_of_cons in Hc' as [->|Hc']; [by destruct Hne|].
    apply list_elem_of_singleton in Hc' as ->. vm_compute. lia.
Defined.

(** * Properties of the git wrapper and of the program *)

Section Stripping.

Implicit Types (s t : string) (c : ascii).

Lemma all_space_app s t : all_space (s +:+ t) = all_space s && all_space t.
Proof.
  induction s as [|c s IH]; [done|]. rewrite append_cons. cbn [all_space].
  by rewrite IH, andb_assoc.
Qed.

Lemma lstrip_split s :
  ∃ lead, s = lead +:+ PyText.lstrip s ∧ all_space lead = true.
Proof.
  induction s as [|c s (lead & IH & Hlead)]; [by exists ""|].
  cbn [PyText.lstrip]. destruct (PyText.is_space c) eqn:Hc.
  - exists (String c lead). rewrite append_cons, <- IH. cbn [all_space].
    by rewrite Hc, Hlead.
  - by exists "".
Qed.

Lemma append_nil_r s : s +:+ "" = s.
Proof. induction s as [|c s IH]; [done|]. by rewrite append_cons, IH. Qed.

Lemma rstrip_split s :
  ∃ trail, s = PyText.rstrip s +:+ trail ∧ all_space trail = true.
Proof.
  induction s as [|c s (trail & IH & Htrail)]; [by exists ""|].
  cbn [PyText.rstrip]. destruct (PyText.rstrip s) as [|c' r] eqn:Hr.
  - rewrite append_nil_l in IH. subst trail.
    destruct (PyText.is_space c) eqn:Hc.
    + exists (String c s). cbn [all_space]. by rewrite Hc, Htrail.
    + by exists s.
  - exists trail. by rewrite append_cons, <- IH.
Qed.

Lemma lstrip_head s c t : PyText.lstrip s = String c t → PyText.is_space c = false.
Proof.
  induction s as [|c' s IH]; [done|]. cbn [PyText.lstrip].
  destruct (PyText.is_space c') eqn:Hc; [done|]. by intros [= <- _].
Qed.

Lemma rstrip_last s t c :
  PyText.rstrip s = t +:+ String c "" → PyText.is_space c = false.
Proof.
  revert t. induction s as [|c' s IH]; intros t.
  { destruct t; by rewrite ?append_cons. }
  cbn [PyText.rstrip]. destruct (PyText.rstrip s) as [|c'' r] eqn:Hr.
  - destruct (PyText.is_space c') eqn:Hc.
    + destruct t; by rewrite ?append_cons.
    + destruct t as [|c0 t]; rewrite ?append_cons, ?append_nil_l.
      * by intros [= <-].
      * intros [= _ Ht]. destruct t; by rewrite ?append_cons in Ht.
  - destruct t as [|c0 t]; rewrite ?append_cons, ?append_nil_l.
    + done.
    + intros [= _ Ht]. by apply (IH t).
Qed.

(** Stripping removes whitespace at both ends and nothing else. *)
Lemma strip_spec s :
  ∃ lead trail,
    s = lead +:+ PyText.strip s +:+ trail
    ∧ all_space lead = true ∧ all_space trail = true
    ∧ (∀ c t, PyText.strip s = String c t → PyText.is_space c = false)
    ∧ (∀ t c, PyText.strip s = t +:+ String c "" → PyText.is_space c = false).
Proof.
  destruct (lstrip_split s) as (lead & Hs & Hlead).
  destruct (rstrip_split (PyText.lstrip s)) as (trail & Hl & Htrail).
  exists lead, trail. unfold PyText.strip. repeat split; try done.
  - by rewrite <- Hl.
  - intros c t Hstrip. rewrite Hstrip, append_cons in Hl.
    by apply (lstrip_head s c (t +:+ trail)).
  - intros t c. apply rstrip_last.
Qed.

Lemma strip_empty s : PyText.strip s = "" ↔ all_space s = true.
Proof.
  destruct (strip_spec s) as (lead & trail & Hs & Hlead & Htrail & Hhead & _).
  split.
  - intros Hstrip. rewrite Hstrip, append_nil_l in Hs.
    by rewrite Hs, all_space_app, Hlead, Htrail.
  - intros Hspace. destruct (PyText.strip s) as [|c t] eqn:Hstrip; [done|].
    rewrite Hs, !all_space_app in Hspace. cbn [all_space] in Hspace.
    rewrite (Hhead c t eq_refl) in Hspace. by rewrite andb_false_r in Hspace.
Qed.

End Stripping.

(** X14. When [subprocess.run] returns (exit status zero) with the
    decoded output [out], [run_git_command] prints nothing and returns
    [out] without the whitespace at its two ends: what is cut off is
    whitespace only, and what is returned neither starts nor ends with a
    whitespace character. *)
Theorem git_output_is_stripped (git : Git) (command : list string) (out : string) :
  git ("git" :: command) = Completed out →
  ∃ lead text trail,
    run_git_command git command = Some ([], text)
    ∧ out = lead +:+ text +:+ trail
    ∧ all_space lead = true ∧ all_space trail = true
    ∧ (∀ c t, text = String c t → PyText.is_space c = false)
    ∧ (∀ t c, text = t +:+ String c "" → PyText.is_space c = false).
Proof.
  intros Hrun. unfold run_git_command. rewrite Hrun.
  destruct (strip_spec out) as (lead & trail & Hparts).
  by exists lead, (PyText.strip out), trail.
Qed.

Lemma git_output_is_stripped_witness :
  ∃ lead text trail,
    run_git_command (git_printing (nl +:+ " M README.md" +:+ nl)) ["status"; "-s"]
    = Some ([], text)
    ∧ nl +:+ " M README.md" +:+ nl = lead +:+ text +:+ trail
    ∧ all_space lead = true ∧ all_space trail = true
    ∧ (∀ c t, text = String c t → PyText.is_space c = false)
    ∧ (∀ t c, text = t +:+ String c "" → PyText.is_space c = false).
Proof.
  apply (git_output_is_stripped _ ["status"; "-s"]). reflexivity.
Defined.

(** X15. The lines the program hands to [print], by the way the call
    [subprocess.run] for [git diff --cached] ends. With [--help] as first
    argument: the usage text, and nothing is run. Otherwise: if the call
    raises anything but [CalledProcessError], the exception escapes; if it
    raises [CalledProcessError], the error line and then the
    no-staged-changes line; if it returns a text of whitespace only, the
    no-staged-changes line alone; if it returns any other text, the
    classification succeeds and the lines are the seventeen of the report
    on the stripped text. *)
Theorem program_outcome (argv : list string) (git : Git) it_paths it_scopes :
  (wants_help argv = true → main argv git it_paths it_scopes = Some help_text)
  ∧ (wants_help argv = false →
     match git ["git"; "diff"; "--cached"] with
     | OtherException => main argv git it_paths it_scopes = None
     | NonZeroExit error_text =>
         main argv git it_paths it_scopes
         = Some ["Error running git command: " +:+ error_text; no_staged_changes]
     | Completed out =>
         if all_space out
         then main argv git it_paths it_scopes = Some [no_staged_changes]
         else ∃ c,
           classify it_paths it_scopes (analyze_changes (PyText.strip out)) = Some c
           ∧ main argv git it_paths it_scopes
             = Some (report (analyze_changes (PyText.strip out)) c)
           ∧ length (report (analyze_changes (PyText.strip out)) c) = 17
     end).
Proof.
  unfold main. split; intros ->; [done|].
  unfold generate_commit_message, get_staged_changes, run_git_command.
  destruct (git ["git"; "diff"; "--cached"]) as [out|error_text|]; [|done..].
  destruct (all_space out) eqn:Hspace.
  - apply strip_empty in Hspace. by rewrite Hspace.
  - destruct (String.eqb_spec (PyText.strip out) "") as [Hstrip|_].
    { apply strip_empty in Hstrip. congruence. }
    unfold classify.
    destruct (determine_scope_spec it_paths it_scopes
                (analyze_changes (PyText.strip out))) as (r & -> & _).
    by eexists.
Qed.

(** * Properties of the name format *)

Section NameFormat.

Implicit Types (s w fin : string) (ws : list string) (c : ascii) (b : bool).

Lemma append_assoc s1 s2 s3 : (s1 +:+ s2) +:+ s3 = s1 +:+ s2 +:+ s3.
Proof. induction s1 as [|c s1 IH]; [done|]. by rewrite !append_cons, IH. Qed.

Lemma join_hyphen_tail w ws fin :
  join "-" (w :: ws) +:+ fin = w +:+ hyphen_tail fin ws.
Proof.
  revert w. induction ws as [|w' ws IH]; intros w; [done|].
  cbn [join hyphen_tail]. rewrite !append_assoc. do 2 f_equal. apply IH.
Qed.

(** No character of the class is the hyphen or the line break. *)
Lemma name_char_plain c :
  SkillName.is_name_char c = true →
  Ascii.eqb c "-" = false ∧ Ascii.eqb c HeaderRe.newline = false
  ∧ PyStr.lower_char c = c.
Proof. destruct c as [[] [] [] [] [] [] [] []]; by intros. Qed.

(** What the matcher accepts is a run, then hyphen-led words, then the
    ending. *)
Lemma name_rest_sound b s :
  SkillName.name_rest b s = true →
  ∃ w ws fin, all_name_chars w = true ∧ (b = false → w ≠ "")
              ∧ Forall is_word ws ∧ (fin = "" ∨ fin = nl)
              ∧ s = w +:+ hyphen_tail fin ws.
Proof.
  revert b. induction s as [|c s IH]; intros b; cbn [SkillName.name_rest].
  { intros ->. exists "", [], "". repeat split; [done|constructor|by left]. }
  destruct (SkillName.is_name_char c) eqn:Hc.
  { intros (w & ws & fin & Hw & _ & Hws & Hfin & ->)%IH.
    exists (String c w), ws, fin. cbn [all_name_chars]. rewrite Hc, Hw.
    by repeat split. }
  destruct (Ascii.eqb_spec c "-") as [->|_].
  { intros [-> (w & ws & fin & Hw & Hne & Hws & Hfin & ->)%IH]%andb_true_iff.
    exists "", (w :: ws), fin. repeat split; try done.
    constructor; [|done]. split; [by apply Hne|done]. }
  destruct (Ascii.eqb_spec c HeaderRe.newline) as [->|_]; [|done].
  intros [-> ->%String.eqb_eq]%andb_true_iff.
  exists "", [], nl. repeat split; [done|constructor|by right].
Qed.

Lemma name_rest_ending fin : fin = "" ∨ fin = nl → SkillName.name_rest true fin = true.
Proof. by intros [->| ->]. Qed.

Lemma name_rest_complete ws :
  Forall is_word ws →
  ∀ fin w b, fin = "" ∨ fin = nl → all_name_chars w = true → (b = false → w ≠ "") →
             SkillName.name_rest b (w +:+ hyphen_tail fin ws) = true.
Proof.
  induction 1 as [|w' ws [Hne' Hw'] _ IH]; intros fin w b Hfin;
    revert b; induction w as [|c w IHw]; intros b Hw Hb.
  - destruct b; [|by destruct Hb]. rewrite append_nil_l. by apply name_rest_ending.
  - rewrite append_cons. cbn [all_name_chars] in Hw.
    apply andb_true_iff in Hw as [Hc Hw]. cbn [SkillName.name_rest]. rewrite Hc.
    by apply IHw.
  - destruct b; [|by destruct Hb]. rewrite append_nil_l. cbn [hyphen_tail].
    rewrite append_cons, append_nil_l. cbn [SkillName.name_rest].
    change (SkillName.is_name_char "-") with false. cbn.
    by apply IH.
  - rewrite append_cons. cbn [all_name_chars] in Hw.
    apply andb_true_iff in Hw as [Hc Hw]. cbn [SkillName.name_rest]. rewrite Hc.
    by apply IHw.
Qed.

Lemma name_rest_lower b s : SkillName.name_rest b s = true → PyStr.lower s = s.
Proof.
  revert b. induction s as [|c s IH]; intros b; [done|].
  cbn [SkillName.name_rest PyStr.lower].
  destruct (SkillName.is_name_char c) eqn:Hc.
  { destruct (name_char_plain c Hc) as (_ & _ & ->). by intros ->%IH. }
  destruct (Ascii.eqb_spec c "-") as [->|_].
  { by intros [_ ->%IH]%andb_true_iff. }
  destruct (Ascii.eqb_spec c HeaderRe.newline) as [->|_]; [|done].
  by intros [_ ->%String.eqb_eq]%andb_true_iff.
Qed.

End NameFormat.

(** X16. The name format accepts exactly the strings made of one or more
    non-empty words over [a-z0-9] joined by single hyphens, optionally
    followed by one line break (which [$] lets pass). *)
Theorem name_format_language (s : string) :
  SkillName.name_format_ok s = true
  ↔ ∃ words fin, words ≠ [] ∧ Forall is_word words ∧ (fin = "" ∨ fin = nl)
                 ∧ s = join "-" words +:+ fin.
Proof.
  unfold SkillName.name_format_ok. split.
  - intros (w & ws & fin & Hw & Hne & Hws & Hfin & ->)%name_rest_sound.
    exists (w :: ws), fin. rewrite join_hyphen_tail. repeat split; try done.
    constructor; [|done]. split; [by apply Hne|done].
  - intros (words & fin & Hne & Hwords & Hfin & ->).
    destruct words as [|w ws]; [done|]. rewrite join_hyphen_tail.
    apply Forall_cons in Hwords as [[Hw1 Hw2] Hws].
    by apply name_rest_complete.
Qed.

(** X17. An accepted name has no upper-case letter: lowercasing it
    changes nothing. *)
Theorem accepted_name_is_lowercase (s : string) :
  SkillName.name_format_ok s = true → PyStr.lower s = s.
Proof. apply name_rest_lower. Qed.

Lemma accepted_name_is_lowercase_witness :
  PyStr.lower "git-commit-messages" = "git-commit-messages".
Proof. apply accepted_name_is_lowercase. reflexivity. Defined.

Section NameRejects.

Implicit Types (s : string) (c : ascii) (b : bool).

Lemma name_rest_cons b c s :
  SkillName.name_rest b (String c s) = true →
  (SkillName.is_name_char c = true ∧ SkillName.name_rest true s = true)
  ∨ (c = "-"%char ∧ SkillName.name_rest false s = true)
  ∨ (c = HeaderRe.newline ∧ s = "").
Proof.
  cbn [SkillName.name_rest]. destruct (SkillName.is_name_char c); [by left|].
  destruct (Ascii.eqb_spec c "-") as [->|_].
  { intros [_ ?]%andb_true_iff. right. by left. }
  destruct (Ascii.eqb_spec c HeaderRe.newline) as [->|_]; [|done].
  intros [_ ->%String.eqb_eq]%andb_true_iff. right. by right.
Qed.

Lemma name_rest_bad_char b s1 c s2 :
  SkillName.is_name_char c = false → c ≠ "-"%char →
  c ≠ HeaderRe.newline ∨ s2 ≠ "" →
  SkillName.name_rest b (s1 +:+ String c s2) = false.
Proof.
  intros Hc Hhyphen Hbreak. apply not_true_is_false. revert b.
  induction s1 as [|c1 s1 IH]; intros b.
  - rewrite append_nil_l. intros [[? _]|[[? _]|[? ?]]]%name_rest_cons;
      [congruence|done|by destruct Hbreak].
  - rewrite append_cons. intros [[_ ?]|[[_ ?]|[_ ?]]]%name_rest_cons;
      [by eapply IH|by eapply IH|by destruct s1].
Qed.

Lemma name_rest_double_hyphen b s1 s2 :
  SkillName.name_rest b (s1 +:+ "--" +:+ s2) = false.
Proof.
  apply not_true_is_false. revert b. induction s1 as [|c1 s1 IH]; intros b.
  - rewrite append_nil_l.
    change ("--" +:+ s2) with (String "-" (String "-" s2)). cbn.
    by rewrite andb_false_r.
  - rewrite append_cons. intros [[_ ?]|[[_ ?]|[_ ?]]]%name_rest_cons;
      [by eapply IH|by eapply IH|by destruct s1].
Qed.

Lemma name_rest_final_hyphen b s :
  SkillName.name_rest b (s +:+ "-") = false.
Proof.
  apply not_true_is_false. revert b. induction s as [|c s IH]; intros b.
  - rewrite append_nil_l. cbn. by rewrite andb_false_r.
  - rewrite append_cons. intros [[_ ?]|[[_ ?]|[_ ?]]]%name_rest_cons;
      [by eapply IH|by eapply IH|by destruct s].
Qed.

End NameRejects.

(** X18. The name format rejects the empty string, a name that starts or
    ends with a hyphen, a name with two hyphens in a row, and a name that
    holds any character other than [a-z], [0-9] and the hyphen, a single
    final line break apart. *)
Theorem name_format_rejects :
  SkillName.name_format_ok "" = false
  ∧ (∀ s, SkillName.name_format_ok ("-" +:+ s) = false)
  ∧ (∀ s, SkillName.name_format_ok (s +:+ "-") = false)
  ∧ (∀ s1 s2, SkillName.name_format_ok (s1 +:+ "--" +:+ s2) = false)
  ∧ (∀ s1 c s2,
       SkillName.is_name_char c = false → c ≠ "-"%char →
       c ≠ HeaderRe.newline ∨ s2 ≠ "" →
       SkillName.name_format_ok (s1 +:+ String c s2) = false).
Proof.
  unfold SkillName.name_format_ok. repeat split.
  - intros s. apply name_rest_final_hyphen.
  - intros s1 s2. apply name_rest_double_hyphen.
  - intros s1 c s2. apply name_rest_bad_char.
Qed.

(** * Further properties of the pipeline *)

Section Buckets.

Lemma bucket_count_le b (paths : list string) : bucket_count b paths ≤ length paths.
Proof.
  induction paths as [|p paths IH]; [done|].
  rewrite bucket_count_cons. cbn [length]. case_decide; lia.
Qed.

Lemma bucket_count_none b (paths : list string) :
  Forall (λ p, bucket p ≠ b) paths → bucket_count b paths = 0.
Proof.
  induction 1 as [|p paths Hp _ IH]; [done|].
  by rewrite bucket_count_cons, IH, decide_False.
Qed.

(** A full count means every path is in the bucket. *)
Lemma bucket_count_full b (paths : list string) :
  bucket_count b paths = length paths → Forall (λ p, bucket p = b) paths.
Proof.
  induction paths as [|p paths IH]; [constructor|].
  rewrite bucket_count_cons. cbn [length].
  pose proof (bucket_count_le b paths). case_decide; [|lia].
  intros Hcount. constructor; [done|]. apply IH. lia.
Qed.

Lemma rule_needs_full_bucket b diff :
  NoDup (header_paths (diff_lines diff)) →
  bucket_count b (header_paths (diff_lines diff))
    = size (affected_paths (analyze_changes diff)) →
  Forall (λ p, bucket p = b) (header_paths (diff_lines diff)).
Proof.
  intros Hnodup. rewrite analyze_affected_paths, size_list_to_set by done.
  apply bucket_count_full.
Qed.

End Buckets.

(** X19. When no path is named by more than one file header, there is a
    file header, and every header path falls into the document bucket,
    the type is [docs], whatever the flags and the line counts. *)
Theorem all_doc_paths_give_docs (diff : string) :
  NoDup (header_paths (diff_lines diff)) →
  header_paths (diff_lines diff) ≠ [] →
  Forall (λ p, bucket p = DocFile) (header_paths (diff_lines diff)) →
  determine_commit_type (analyze_changes diff) = "docs".
Proof.
  intros Hnodup Hne Hall.
  destruct (analyze_counters diff) as (Htest & _ & Hdoc).
  assert (Hsize : size (affected_paths (analyze_changes diff))
                  = length (header_paths (diff_lines diff))).
  { by rewrite analyze_affected_paths, size_list_to_set. }
  rewrite bucket_count_none in Htest
    by (eapply Forall_impl; [exact Hall|]; by intros p ->).
  rewrite (bucket_count_all _ _ Hall) in Hdoc.
  unfold determine_commit_type. rewrite Htest, Hdoc, Hsize, Nat.eqb_refl.
  destruct (header_paths (diff_lines diff)); [done|]. done.
Qed.

Lemma all_doc_paths_give_docs_witness :
  determine_commit_type (analyze_changes two_docs_diff) = "docs".
Proof.
  apply (all_doc_paths_give_docs two_docs_diff).
  - apply (bool_decide_unpack _). by vm_compute.
  - by vm_compute.
  - repeat constructor.
Defined.

(** X20. When no path is named by more than one file header, some header
    path falls into the configuration bucket and some header path (the
    same or another) has one of the extensions .json, .yml, .yaml, .toml,
    .ini, the type is [chore], whatever the flags and the line counts. *)
Theorem config_change_is_chore (diff p q : string) :
  NoDup (header_paths (diff_lines diff)) →
  p ∈ header_paths (diff_lines diff) → bucket p = ConfigFile →
  q ∈ header_paths (diff_lines diff) →
  PyStr.lower (PurePath.suffix q) ∈ chore_extensions →
  determine_commit_type (analyze_changes diff) = "chore".
Proof.
  intros Hnodup Hp Hbucket Hq Hext.
  destruct (analyze_counters diff) as (Htest & Hconfig & Hdoc).
  unfold determine_commit_type.
  assert (Hnot : ∀ b, b ≠ ConfigFile →
            bucket_count b (header_paths (diff_lines diff))
            ≠ size (affected_paths (analyze_changes diff))).
  { intros b Hb Hfull. apply (rule_needs_full_bucket b diff Hnodup) in Hfull.
    apply (proj1 (Forall_forall _ _) Hfull) in Hp. congruence. }
  rewrite Htest, Hdoc.
  rewrite (proj2 (Nat.eqb_neq _ _) (Hnot TestFile ltac:(done))).
  rewrite (proj2 (Nat.eqb_neq _ _) (Hnot DocFile ltac:(done))).
  rewrite !andb_false_r.
  assert (Hpos : 0 < config_files (analyze_changes diff)).
  { rewrite Hconfig. clear -Hp Hbucket.
    induction (header_paths (diff_lines diff)) as [|p' paths IH];
      [by apply elem_of_nil in Hp|].
    rewrite bucket_count_cons.
    apply elem_of_cons in Hp as [<-|Hp]; [rewrite decide_True by done; lia|].
    specialize (IH Hp). lia. }
  apply Nat.ltb_lt in Hpos. rewrite Hpos.
  rewrite bool_decide_eq_true_2; [done|].
  exists (PyStr.lower (PurePath.suffix q)). split; [|done].
  apply elem_of_modified_extensions.
  apply list_elem_of_omap in Hq as (line & Hline & Hheader).
  split.
  - intros Hempty. rewrite Hempty in Hext. unfold chore_extensions in Hext.
    repeat (apply elem_of_cons in Hext as [Hext|Hext]; [done|]).
    by apply elem_of_nil in Hext.
  - by exists line, q.
Qed.

Lemma config_change_is_chore_witness :
  determine_commit_type (analyze_changes config_diff) = "chore".
Proof.
  apply (config_change_is_chore config_diff "package.json" "package.json").
  - apply (bool_decide_unpack _). by vm_compute.
  - apply (bool_decide_unpack _). by vm_compute.
  - by vm_compute.
  - apply (bool_decide_unpack _). by vm_compute.
  - apply (bool_decide_unpack _). by vm_compute.
Defined.

Section HeaderSound.

Implicit Types (s pre rest : string).

Lemma newline_free_app_inv s1 s2 :
  newline_free (s1 +:+ s2) → newline_free s1 ∧ newline_free s2.
Proof.
  induction s1 as [|c s1 IH]; [by rewrite append_nil_l|].
  rewrite append_cons. intros [Hc [Hs1 Hs2]%IH]%newline_free_cons.
  split; [|done]. by apply newline_free_cons.
Qed.

(** Where the search matches, the literal part stands before the groups. *)
Lemma search_sound s m :
  HeaderRe.search s = Some m →
  ∃ pre rest, s = pre +:+ "diff --git a/" +:+ rest ∧ HeaderRe.groups rest = Some m.
Proof.
  induction s as [|c s IH].
  - cbn. done.
  - cbn [HeaderRe.search]. unfold HeaderRe.match_here.
    destruct (PyStr.startswith (String c s) "diff --git a/") eqn:Hhead.
    + destruct (HeaderRe.groups (PyStr.drop 13 (String c s))) as [m'|] eqn:Hgroups.
      * intros [= <-]. exists "", (PyStr.drop 13 (String c s)).
        split; [|done]. rewrite append_nil_l.
        apply (prefix_split "diff --git a/" _ Hhead).
      * intros (pre & rest & -> & Hrest)%IH. by exists (String c pre), rest.
    + intros (pre & rest & -> & Hrest)%IH. by exists (String c pre), rest.
Qed.

End HeaderSound.

(** X21. Every affected path is non-empty and is the end of a line of the
    diff that starts with [diff --git] and holds, before the path,
    [diff --git a/], a non-empty old path and [" b/"]. *)
Theorem affected_path_ends_header_line (diff p : string) :
  p ∈ affected_paths (analyze_changes diff) →
  p ≠ ""
  ∧ ∃ line pre old,
      line ∈ diff_lines diff
      ∧ PyStr.startswith line "diff --git" = true
      ∧ old ≠ ""
      ∧ line = pre +:+ "diff --git a/" +:+ old +:+ " b/" +:+ p.
Proof.
  intros (line & Hline & Hheader)%elem_of_affected_paths.
  pose proof (diff_lines_newline_free diff line Hline) as Hfree.
  unfold header_path in Hheader.
  destruct (PyStr.startswith line "diff --git") eqn:Hstart; [|done].
  destruct (HeaderRe.search line) as [[old new]|] eqn:Hsearch; [|done].
  injection Hheader as ->.
  destruct (search_sound _ _ Hsearch) as (pre & rest & Hparts & Hgroups).
  rewrite Hparts in Hfree.
  apply newline_free_app_inv in Hfree as [_ [_ Hrest]%newline_free_app_inv].
  destruct (groups_sound _ _ _ Hrest Hgroups) as (Hold & Hnew & ->).
  split; [done|]. by exists line, pre, old.
Qed.

Lemma affected_path_ends_header_line_witness :
  "Makefile" ≠ ""
  ∧ ∃ line pre old,
      line ∈ diff_lines makefile_diff
      ∧ PyStr.startswith line "diff --git" = true
      ∧ old ≠ ""
      ∧ line = pre +:+ "diff --git a/" +:+ old +:+ " b/" +:+ "Makefile".
Proof.
  apply (affected_path_ends_header_line makefile_diff "Makefile").
  apply (bool_decide_unpack _). by vm_compute.
Defined.
